(** * Authentication and authorization chain of the library API

    A shallow embedding of the JavaScript sources

      - [middleware/authrefresh.js]  ([authenticateRefreshToken]),
      - [middleware/roles.js]        ([authorizeRoles], both revisions),
      - [app.js]                     (the [register], [login] and [refresh]
                                      routes),

    as programs of a small state-and-exception monad over the per-request
    state of an Express application, followed by the properties of these
    programs.

    The third-party packages the code calls ([jsonwebtoken], [bcryptjs],
    the Prisma client) and the process environment are collected in a
    record [Platform]; every program is parametric in it. *)

From Stdlib Require Import String Ascii List ZArith Bool Lia.
Import ListNotations.
Local Open Scope string_scope.
Local Open Scope Z_scope.
Set Warnings "-register-all".

(** ** JavaScript values *)

(** The JSON-shaped fragment of JavaScript values that flows through the
    handlers: request bodies, token payloads, database rows, response
    bodies.  Numbers are the integers (ids, timestamps); an object is its
    list of own properties in insertion order.  [VOpaque] stands for a host
    object or a function (the Express application, an imported module, the
    request and response objects): it is truthy, has type [object] and no
    data properties. *)
Inductive value : Type :=
| VUndef
| VNull
| VBool (b : bool)
| VNum (n : Z)
| VStr (s : string)
| VObj (fields : list (string * value))
| VOpaque (name : string).

(** What a program can throw.  [Error] is the plain [Error] object a library
    rejects with. *)
Inductive Exn : Type :=
| ReferenceError (ident : string)
| TypeError (msg : string)
| Error (msg : string).

(** [err.message] *)
Definition message (e : Exn) : string :=
  match e with
  | ReferenceError x => x ++ " is not defined"
  | TypeError m => m
  | Error m => m
  end.

Inductive Result (A : Type) : Type :=
| Ok (a : A)
| Throw (e : Exn).
Arguments Ok {A} a.
Arguments Throw {A} e.

(** ToBoolean: [if (v)], [!v], [a && b]. *)
Definition truthy (v : value) : bool :=
  match v with
  | VUndef | VNull => false
  | VBool b => b
  | VNum n => negb (n =? 0)
  | VStr s => negb (s =? "")%string
  | VObj _ | VOpaque _ => true
  end.

(** [typeof v] *)
Definition typeof (v : value) : string :=
  match v with
  | VUndef => "undefined"
  | VNull => "object"
  | VBool _ => "boolean"
  | VNum _ => "number"
  | VStr _ => "string"
  | VObj _ => "object"
  | VOpaque _ => "object"
  end.

Fixpoint assoc {A : Type} (k : string) (l : list (string * A)) : option A :=
  match l with
  | [] => None
  | (k', v) :: r => if (k =? k')%string then Some v else assoc k r
  end.

(** [o.k] for a data property [k]: reading a property of [undefined] or
    [null] throws; a primitive or an object without the property gives
    [undefined]. *)
Definition prop (o : value) (k : string) : Result value :=
  match o with
  | VUndef => Throw (TypeError ("Cannot read properties of undefined (reading '" ++ k ++ "')"))
  | VNull => Throw (TypeError ("Cannot read properties of null (reading '" ++ k ++ "')"))
  | VObj fields => Ok (match assoc k fields with Some v => v | None => VUndef end)
  | _ => Ok VUndef
  end.

(** ** Strings

    A string is its sequence of bytes, UTF-8 outside ASCII.  Splitting on a
    space, indexing and equality are exact on every string.

    [String.prototype.trim] and [String.prototype.toLowerCase] follow the
    Unicode tables of the runtime: the programs take them from the platform
    ([str_trim] and [str_toLowerCase] below).  The functions of this section
    are what the two methods do to a string of ASCII characters, the only
    strings they are used on. *)

(** The strings of ASCII characters. *)
Fixpoint is_ascii (s : string) : bool :=
  match s with
  | EmptyString => true
  | String c r => (Nat.ltb (nat_of_ascii c) 128 && is_ascii r)%bool
  end.

Definition ascii_upper (c : ascii) : bool :=
  let n := nat_of_ascii c in (Nat.leb 65 n && Nat.leb n 90)%bool.

Definition ascii_lower (c : ascii) : ascii :=
  if ascii_upper c then ascii_of_nat (nat_of_ascii c + 32) else c.

(** [s.toLowerCase()] for a string [s] of ASCII characters. *)
Fixpoint ascii_toLowerCase (s : string) : string :=
  match s with
  | EmptyString => EmptyString
  | String c r => String (ascii_lower c) (ascii_toLowerCase r)
  end.

(** The white space and line terminators among the ASCII characters: TAB,
    LF, VT, FF, CR, SPACE. *)
Definition ascii_ws (c : ascii) : bool :=
  let n := nat_of_ascii c in
  (Nat.eqb n 32 || (Nat.leb 9 n && Nat.leb n 13))%bool.

Fixpoint ascii_trimStart (s : string) : string :=
  match s with
  | EmptyString => EmptyString
  | String c r => if ascii_ws c then ascii_trimStart r else s
  end.

Fixpoint ascii_trimEnd (s : string) : string :=
  match s with
  | EmptyString => EmptyString
  | String c r =>
      match ascii_trimEnd r with
      | EmptyString => if ascii_ws c then EmptyString else String c EmptyString
      | r' => String c r'
      end
  end.

(** [s.trim()] for a string [s] of ASCII characters. *)
Definition ascii_trim (s : string) : string := ascii_trimEnd (ascii_trimStart s).

(** [s.split(sep)] for a one-character separator: always at least one
    piece, an empty piece between two adjacent separators. *)
Fixpoint split (sep : ascii) (s : string) : list string :=
  match s with
  | EmptyString => [EmptyString]
  | String c r =>
      if Ascii.eqb c sep then EmptyString :: split sep r
      else match split sep r with
           | [] => [String c EmptyString]
           | w :: ws => String c w :: ws
           end
  end.

(** [a[i]] on an array of strings: [undefined] out of range. *)
Definition index (a : list string) (i : nat) : value :=
  match nth_error a i with
  | Some s => VStr s
  | None => VUndef
  end.

(** [a.includes(x)] on an array of strings. *)
Definition includes (a : list string) (x : string) : bool :=
  existsb (String.eqb x) a.

(** [a.toString()], used when an array is concatenated to a string. *)
Fixpoint join_comma (a : list string) : string :=
  match a with
  | [] => ""
  | [x] => x
  | x :: r => x ++ "," ++ join_comma r
  end.

(** *** Trimmed and equal up to case, on strings of ASCII characters

    Case-insensitive equality, character by character, and what it means
    for [t] to be [r] with its surrounding white space removed.  These two
    definitions do not mention [ascii_toLowerCase] or [ascii_trim]. *)

Definition same_letter (a b : ascii) : Prop :=
  a = b \/
  (ascii_upper a = true /\ nat_of_ascii b = (nat_of_ascii a + 32)%nat) \/
  (ascii_upper b = true /\ nat_of_ascii a = (nat_of_ascii b + 32)%nat).

Inductive CiEq : string -> string -> Prop :=
| CiEq_nil : CiEq EmptyString EmptyString
| CiEq_cons a b s t : same_letter a b -> CiEq s t -> CiEq (String a s) (String b t).

Fixpoint all_ws (s : string) : bool :=
  match s with
  | EmptyString => true
  | String c r => (ascii_ws c && all_ws r)%bool
  end.

Definition first_char (s : string) : option ascii :=
  match s with
  | EmptyString => None
  | String c _ => Some c
  end.

Fixpoint last_char (s : string) : option ascii :=
  match s with
  | EmptyString => None
  | String c EmptyString => Some c
  | String _ r => last_char r
  end.

Definition not_ws (o : option ascii) : Prop :=
  match o with
  | None => True
  | Some c => ascii_ws c = false
  end.

Definition Trimmed (r t : string) : Prop :=
  exists l k, r = l ++ t ++ k /\ all_ws l = true /\ all_ws k = true /\
              not_ws (first_char t) /\ not_ws (last_char t).

(** The role [r], a string of ASCII characters, is allowed by the set. *)
Definition role_allowed (allowedRoles : list string) (r : string) : Prop :=
  exists t a, Trimmed r t /\ In a allowedRoles /\ CiEq t a.

(** ** The platform: environment and third-party packages *)

(** [jwt.sign]'s options object; the code only sets [expiresIn]. *)
Record SignOptions : Type := { expiresIn : string }.

(** The errors [jwt.verify] reports to its callback. *)
Inductive JwtError : Type :=
| TokenExpiredError
| NotBeforeError
| JsonWebTokenError (msg : string).

Inductive VerifyResult : Type :=
| VerifyErr (err : JwtError)
| VerifyOk (decoded : value).

(** What the code is linked and configured with.
    - [env] is [process.env];
    - [now] is the clock at the request, in seconds;
    - [jwt_encode payload secret] is the signed, serialized token
      [jsonwebtoken] makes of a complete payload (it fails when it has no
      secret to sign with) and [jwt_verify token secret] is what its
      [verify] reports at the instant of the request;
    - [bcrypt_hashfn s rounds] is the salted hash [bcryptjs] computes for
      the string [s] in this request and [bcrypt_cmpfn s h] its comparison
      of the string [s] with the stored hash [h];
    - [prisma_create] and [prisma_findUnique] are [prisma.user.create] and
      [prisma.user.findUnique] over a database of type [DB];
    - [str_trim] and [str_toLowerCase] are [String.prototype.trim] and
      [String.prototype.toLowerCase] of the runtime. *)
Record Platform : Type := {
  DB : Type;
  env : string -> value;
  now : Z;
  jwt_encode : value -> value -> Result string;
  jwt_verify : string -> value -> VerifyResult;
  bcrypt_hashfn : string -> Z -> string;
  bcrypt_cmpfn : string -> string -> Result bool;
  prisma_create : value -> DB -> Result (value * DB);
  prisma_findUnique : value -> DB -> Result value;
  str_trim : string -> string;
  str_toLowerCase : string -> string
}.

(** [v.trim()]: the method exists on strings only. *)
Definition call_trim (P : Platform) (v : value) : Result string :=
  match v with
  | VStr s => Ok (str_trim P s)
  | VUndef => Throw (TypeError "Cannot read properties of undefined (reading 'trim')")
  | VNull => Throw (TypeError "Cannot read properties of null (reading 'trim')")
  | _ => Throw (TypeError "req.user.role.trim is not a function")
  end.

(** On strings of ASCII characters the two methods of the runtime are the
    functions [ascii_trim] and [ascii_toLowerCase]. *)
Definition ascii_runtime (P : Platform) : Prop :=
  forall s, is_ascii s = true ->
            str_trim P s = ascii_trim s /\ str_toLowerCase P s = ascii_toLowerCase s.

(** The role [r], trimmed, equals an allowed role up to case: the two are
    the same once lowered. *)
Definition role_matches (P : Platform) (allowedRoles : list string) (r : string) : Prop :=
  exists a, In a allowedRoles /\
            str_toLowerCase P (str_trim P r) = str_toLowerCase P a.

(** [jsonwebtoken] reads a string [expiresIn] as a time span, a decimal
    number followed by a unit, in seconds. *)
Definition unit_seconds (u : string) : option Z :=
  if (u =? "s")%string then Some 1
  else if (u =? "m")%string then Some 60
  else if (u =? "h")%string then Some 3600
  else if (u =? "d")%string then Some 86400
  else if (u =? "w")%string then Some 604800
  else if (u =? "y")%string then Some 31557600
  else None.

Definition digit (c : ascii) : option Z :=
  let n := nat_of_ascii c in
  if (Nat.leb 48 n && Nat.leb n 57)%bool then Some (Z.of_nat (n - 48)) else None.

Fixpoint timespan_from (acc : Z) (s : string) : option Z :=
  match s with
  | EmptyString => None
  | String c r =>
      match digit c with
      | Some d => timespan_from (10 * acc + d) r
      | None => match unit_seconds s with
                | Some u => Some (acc * u)
                | None => None
                end
      end
  end.

Definition timespan (s : string) : option Z :=
  match s with
  | EmptyString => None
  | String c _ => match digit c with
                  | Some _ => timespan_from 0 s
                  | None => None
                  end
  end.

(** [jwt.sign(payload, secret, { expiresIn })] on an object payload that
    has no [iat] or [exp] of its own: the time of issue and the expiry, the
    time of issue plus the time span, are added to the claims and the
    result is signed. *)
Definition jwt_sign (P : Platform) (payload secret : value) (options : SignOptions)
  : Result string :=
  match payload with
  | VObj fields =>
      match timespan (expiresIn options) with
      | Some seconds =>
          jwt_encode P (VObj (fields ++ [("iat", VNum (now P));
                                         ("exp", VNum (now P + seconds))])) secret
      | None =>
          Throw (Error "expiresIn should be a number of seconds or string representing a timespan")
      end
  | _ => Throw (Error "invalid expiresIn option for non-object payload")
  end.
Arguments jwt_sign : simpl never.

(** ** Requests, responses and the handler monad *)

Record Req : Type := {
  req_headers : list (string * string);
  req_body : value;
  req_user : value
}.

Record Response : Type := {
  status : Z;
  body : value
}.

(** The calls a request makes to the packages, in order. *)
Inductive Call : Type :=
| CallSign (payload secret : value) (options : SignOptions)
| CallVerify (token : string) (secret : value)
| CallHash (s : value) (rounds : Z)
| CallCompare (s hash : value)
| CallCreate (data : value)
| CallFindUnique (email : value).

(** The state one request runs in: the request object (middleware write
    [req.user]), the response once it has been sent, how many times [next]
    was called, the database, the package calls made so far and what was
    written with [console.error]. *)
Record St (D : Type) : Type := {
  st_req : Req;
  st_res : option Response;
  st_next : nat;
  st_db : D;
  st_calls : list Call;
  st_console : list Exn
}.
Arguments st_req {D} s.
Arguments st_res {D} s.
Arguments st_next {D} s.
Arguments st_db {D} s.
Arguments st_calls {D} s.
Arguments st_console {D} s.

Definition M (D A : Type) : Type := St D -> Result A * St D.

Definition ret {D A} (a : A) : M D A := fun s => (Ok a, s).

Definition throw {D A} (e : Exn) : M D A := fun s => (Throw e, s).

Definition bind {D A B} (m : M D A) (k : A -> M D B) : M D B :=
  fun s => match m s with
           | (Ok a, s') => k a s'
           | (Throw e, s') => (Throw e, s')
           end.

(** [try { m } catch (err) { h err }]: what [m] did before it threw stays
    done. *)
Definition try_catch {D A} (m : M D A) (h : Exn -> M D A) : M D A :=
  fun s => match m s with
           | (Ok a, s') => (Ok a, s')
           | (Throw e, s') => h e s'
           end.

Definition lift {D A} (r : Result A) : M D A := fun s => (r, s).

Declare Scope js_scope.
Delimit Scope js_scope with js.
Notation "x <- m ;; k" := (bind m (fun x => k))
  (at level 61, m at next level, right associativity) : js_scope.
Notation "m ;; k" := (bind m (fun _ => k))
  (at level 61, right associativity) : js_scope.
Local Open Scope js_scope.

(** State updates. *)
Definition with_req {D} (s : St D) (r : Req) : St D :=
  {| st_req := r; st_res := st_res s; st_next := st_next s; st_db := st_db s;
     st_calls := st_calls s; st_console := st_console s |}.

Definition with_response {D} (s : St D) (code : Z) (b : value) : St D :=
  {| st_req := st_req s; st_res := Some {| status := code; body := b |};
     st_next := st_next s; st_db := st_db s;
     st_calls := st_calls s; st_console := st_console s |}.

Definition with_next {D} (s : St D) : St D :=
  {| st_req := st_req s; st_res := st_res s; st_next := S (st_next s);
     st_db := st_db s; st_calls := st_calls s; st_console := st_console s |}.

Definition with_db {D} (s : St D) (db : D) : St D :=
  {| st_req := st_req s; st_res := st_res s; st_next := st_next s; st_db := db;
     st_calls := st_calls s; st_console := st_console s |}.

Definition with_call {D} (s : St D) (c : Call) : St D :=
  {| st_req := st_req s; st_res := st_res s; st_next := st_next s; st_db := st_db s;
     st_calls := st_calls s ++ [c]; st_console := st_console s |}.

Definition with_console {D} (s : St D) (e : Exn) : St D :=
  {| st_req := st_req s; st_res := st_res s; st_next := st_next s; st_db := st_db s;
     st_calls := st_calls s; st_console := st_console s ++ [e] |}.

Definition set_user (r : Req) (u : value) : Req :=
  {| req_headers := req_headers r; req_body := req_body r; req_user := u |}.

Definition get_req {D} : M D Req := fun s => (Ok (st_req s), s).

Definition log_call {D} (c : Call) : M D unit :=
  fun s => (Ok tt, with_call s c).

(** [req.user = user] *)
Definition set_req_user {D} (u : value) : M D unit :=
  fun s => (Ok tt, with_req s (set_user (st_req s) u)).

(** [res.status(code).json(b)]: a response can be sent once. *)
Definition res_status_json {D} (code : Z) (b : value) : M D unit :=
  fun s => match st_res s with
           | Some _ => (Throw (Error "Cannot set headers after they are sent to the client"), s)
           | None => (Ok tt, with_response s code b)
           end.

(** [res.json(b)]: the status is 200 unless set. *)
Definition res_json {D} (b : value) : M D unit := res_status_json 200 b.

(** [next()] *)
Definition next {D} : M D unit := fun s => (Ok tt, with_next s).

(** [console.error(err)] *)
Definition console_error {D} (e : Exn) : M D unit :=
  fun s => (Ok tt, with_console s e).

(** Reading an identifier: bound in the scope or a [ReferenceError]. *)
Definition ident {D} (scope : list (string * value)) (x : string) : M D value :=
  match assoc x scope with
  | Some v => ret v
  | None => throw (ReferenceError x)
  end.

(** An Express route: the stages run in order; a stage that returns without
    calling [next] ends the request, and an exception that leaves a stage
    leaves the route (what the framework does with it is not part of these
    sources). *)
Fixpoint run_route {D} (stages : list (M D unit)) (s : St D) : Result unit * St D :=
  match stages with
  | [] => (Ok tt, s)
  | stage :: rest =>
      match stage s with
      | (Throw e, s') => (Throw e, s')
      | (Ok _, s') => if Nat.ltb (st_next s) (st_next s') then run_route rest s'
                      else (Ok tt, s')
      end
  end.

(** The state a request starts in. *)
Definition init_st {D} (req : Req) (db : D) : St D :=
  {| st_req := req; st_res := None; st_next := 0%nat; st_db := db;
     st_calls := []; st_console := [] |}.

(** [req.headers[name]]: the header's string, or [undefined]. *)
Definition header (req : Req) (name : string) : value :=
  match assoc name (req_headers req) with
  | Some h => VStr h
  | None => VUndef
  end.

(** ** Scopes

    The identifiers a function body can read: its parameters, the top-level
    bindings of its module and the globals of the runtime. *)

Definition node_globals : list (string * value) :=
  map (fun x => (x, VOpaque x))
    ["globalThis"; "process"; "console"; "Buffer"; "setTimeout"; "setInterval";
     "clearTimeout"; "clearInterval"; "fetch"; "URL"; "Object"; "Array"; "String";
     "Number"; "Boolean"; "Symbol"; "JSON"; "Math"; "Date"; "Promise"; "Error";
     "TypeError"; "ReferenceError"; "RegExp"; "Map"; "Set"; "parseInt";
     "parseFloat"; "isNaN"; "undefined"; "NaN"; "Infinity"].

(** Top level of [app.js]: its imports and [const] declarations. *)
Definition app_scope : list (string * value) :=
  [("express", VOpaque "express"); ("app", VOpaque "app"); ("port", VNum 3000);
   ("PrismaClient", VOpaque "PrismaClient"); ("prisma", VOpaque "prisma");
   ("bcrypt", VOpaque "bcrypt"); ("jwt", VOpaque "jwt");
   ("authenticateToken", VOpaque "authenticateToken");
   ("authenticateRefreshToken", VOpaque "authenticateRefreshToken");
   ("authorizeRoles", VOpaque "authorizeRoles");
   ("swaggerUi", VOpaque "swaggerUi"); ("swaggerJsdoc", VOpaque "swaggerJsdoc");
   ("swaggerOptions", VOpaque "swaggerOptions"); ("swaggerDocs", VOpaque "swaggerDocs")].

(** Inside a route handler [(req, res) => ...] of [app.js]. *)
Definition handler_scope : list (string * value) :=
  [("req", VOpaque "req"); ("res", VOpaque "res")] ++ app_scope ++ node_globals.

(** Inside the middleware [(req, res, next) => ...] returned by
    [authorizeRoles(...allowedRoles)]: the module has no import and no other
    top-level binding than [authorizeRoles]. *)
Definition roles_scope : list (string * value) :=
  [("req", VOpaque "req"); ("res", VOpaque "res"); ("next", VOpaque "next");
   ("allowedRoles", VOpaque "allowedRoles"); ("authorizeRoles", VOpaque "authorizeRoles")]
  ++ node_globals.

(** ** The programs *)

Section Programs.

Context (P : Platform).

Let D : Type := DB P.

(** [jwt.sign(payload, secret, options)] *)
Definition sign (payload secret : value) (options : SignOptions) : M D string :=
  log_call (CallSign payload secret options) ;;
  lift (jwt_sign P payload secret options).

(** [jwt.verify(token, secret, callback)]: the outcome the callback is
    called with.  A token that is not a string is reported as an error. *)
Definition verify (token secret : value) : M D VerifyResult :=
  match token with
  | VStr t => log_call (CallVerify t secret) ;; ret (jwt_verify P t secret)
  | _ => ret (VerifyErr (JsonWebTokenError "jwt must be a string"))
  end.

(** [await bcrypt.hash(s, rounds)]: rejects unless [s] is a string. *)
Definition bcrypt_hash (s : value) (rounds : Z) : M D string :=
  log_call (CallHash s rounds) ;;
  match s with
  | VStr p => ret (bcrypt_hashfn P p rounds)
  | _ => throw (Error ("Illegal arguments: " ++ typeof s ++ ", number"))
  end.

(** [await bcrypt.compare(s, hash)]: rejects unless both are strings. *)
Definition bcrypt_compare (s hash : value) : M D bool :=
  log_call (CallCompare s hash) ;;
  match s, hash with
  | VStr p, VStr h => lift (bcrypt_cmpfn P p h)
  | _, _ => throw (Error ("Illegal arguments: " ++ typeof s ++ ", " ++ typeof hash))
  end.

(** [await prisma.user.create({ data })] *)
Definition user_create (data : value) : M D value :=
  log_call (CallCreate data) ;;
  fun s => match prisma_create P data (st_db s) with
           | Ok (row, db') =>
               (Ok row, {| st_req := st_req s; st_res := st_res s; st_next := st_next s;
                           st_db := db'; st_calls := st_calls s;
                           st_console := st_console s |})
           | Throw e => (Throw e, s)
           end.

(** [await prisma.user.findUnique({ where: { email } })] *)
Definition user_findUnique (email : value) : M D value :=
  log_call (CallFindUnique email) ;;
  fun s => (prisma_findUnique P email (st_db s), s).

(** *** middleware/authrefresh.js *)

(** [authHeader && authHeader.split(' ')[1]] *)
Definition bearer (authHeader : value) : value :=
  if truthy authHeader then
    match authHeader with
    | VStr h => index (split " " h) 1
    | _ => VUndef
    end
  else authHeader.

Definition authenticateRefreshToken : M D unit :=
  req <- get_req ;;
  let authHeader := header req "authorization" in
  let token := bearer authHeader in
  if negb (truthy token) then
    res_status_json 401 (VObj [("error", VStr "Token manquant")])
  else
    r <- verify token (env P "REFRESH_TOKEN_SECRET") ;;
    match r with
    | VerifyErr _ => res_status_json 403 (VObj [("error", VStr "Token invalide")])
    | VerifyOk user => set_req_user user ;; next
    end.

(** *** middleware/roles.js *)

(** The revision without a persistence handle. *)
Definition authorizeRoles (allowedRoles : list string) : M D unit :=
  req <- get_req ;;
  if negb (truthy (req_user req)) then
    res_status_json 401 (VObj [("error", VStr "Non authentifié")])
  else
    r <- lift (prop (req_user req) "role") ;;
    role <- lift (call_trim P r) ;;
    if negb (includes (map (str_toLowerCase P) allowedRoles) (str_toLowerCase P role)) then
      res_status_json 403 (VObj [("error", VStr "Accès interdit pour ce rôle")])
    else next.

(** The revision that starts with [const prisma = new PrismaClient();]. *)
Definition authorizeRoles_v1 (allowedRoles : list string) : M D unit :=
  _ <- ident roles_scope "PrismaClient" ;;
  req <- get_req ;;
  if negb (truthy (req_user req)) then
    res_status_json 401 (VObj [("error", VStr "Non authentifié")])
  else
    r <- lift (prop (req_user req) "role") ;;
    role <- lift (call_trim P r) ;;
    if negb (includes (map (str_toLowerCase P) allowedRoles) (str_toLowerCase P role)) then
      res_status_json 403
        (VObj [("error", VStr ("Accès interdit pour ce rôle : " ++ role ++
                               " allowed : " ++ join_comma allowedRoles))])
    else next.

(** *** app.js: the authentication routes *)

(** [app.post('/api/v1/auth/register', ...)]: the destructuring and the
    hashing are in front of the [try] block. *)
Definition register : M D unit :=
  req <- get_req ;;
  email <- lift (prop (req_body req) "email") ;;
  password <- lift (prop (req_body req) "password") ;;
  let role := VStr "user" in
  hashed <- bcrypt_hash password 10 ;;
  let password := VStr hashed in
  try_catch
    (newUser <- user_create (VObj [("email", email); ("password", password); ("role", role)]) ;;
     res_status_json 201 newUser)
    (fun err => res_status_json 500 (VObj [("error", VStr (message err))])).

(** [app.post('/api/v1/auth/login', ...)] *)
Definition login : M D unit :=
  req <- get_req ;;
  email <- lift (prop (req_body req) "email") ;;
  password <- lift (prop (req_body req) "password") ;;
  try_catch
    (user <- user_findUnique email ;;
     if negb (truthy user) then
       res_status_json 400 (VObj [("message", VStr "Utilisateur introuvable")])
     else
       stored <- lift (prop user "password") ;;
       isValid <- bcrypt_compare password stored ;;
       if negb isValid then
         res_status_json 400 (VObj [("message", VStr "Mot de passe incorrect")])
       else
         id <- lift (prop user "id") ;;
         role <- lift (prop user "role") ;;
         accessToken <- sign (VObj [("userId", id); ("role", role)])
                             (env P "ACCESS_TOKEN_SECRET") {| expiresIn := "1d" |} ;;
         id' <- lift (prop user "id") ;;
         role' <- lift (prop user "role") ;;
         refreshToken <- sign (VObj [("userId", id'); ("role", role')])
                              (env P "REFRESH_TOKEN_SECRET") {| expiresIn := "30d" |} ;;
         res_json (VObj [("message", VStr "Connexion réussie");
                         ("accessToken", VStr accessToken)]))
    (fun err => res_status_json 500 (VObj [("error", VStr (message err))])).

(** The handler of [app.post('/api/v1/auth/refresh', authenticateRefreshToken, ...)]. *)
Definition refresh : M D unit :=
  try_catch
    (user <- ident handler_scope "user" ;;
     id <- lift (prop user "id") ;;
     user' <- ident handler_scope "user" ;;
     role <- lift (prop user' "role") ;;
     newAccessToken <- sign (VObj [("userId", id); ("role", role)])
                            (env P "ACCESS_TOKEN_SECRET") {| expiresIn := "1d" |} ;;
     res_json (VObj [("accessToken", VStr newAccessToken)]))
    (fun err =>
       console_error err ;;
       res_status_json 500 (VObj [("error", VStr "Erreur serveur")])).

(** The route [POST /api/v1/auth/refresh]. *)
Definition refresh_route : St D -> Result unit * St D :=
  run_route [authenticateRefreshToken; refresh].

End Programs.

(** The claims object [{ userId, role }] a token is signed over. *)
Definition claims (id role : value) : value :=
  VObj [("userId", id); ("role", role)].


(** The record [{ email, password, role }] handed to [prisma.user.create]. *)
Definition user_data (email password role : value) : value :=
  VObj [("email", email); ("password", password); ("role", role)].

(** The calls of a login that reaches the end of the [try] block. *)
Definition login_calls (P : Platform) (email : value) (p h : string) (id role : value)
  : list Call :=
  [CallFindUnique email;
   CallCompare (VStr p) (VStr h);
   CallSign (claims id role) (env P "ACCESS_TOKEN_SECRET") {| expiresIn := "1d" |};
   CallSign (claims id role) (env P "REFRESH_TOKEN_SECRET") {| expiresIn := "30d" |}].

(** [P] with [process.env] replaced. *)
Definition with_env (P : Platform) (e : string -> value) : Platform :=
  {| DB := DB P; env := e; now := now P;
     jwt_encode := jwt_encode P; jwt_verify := jwt_verify P;
     bcrypt_hashfn := bcrypt_hashfn P; bcrypt_cmpfn := bcrypt_cmpfn P;
     prisma_create := prisma_create P; prisma_findUnique := prisma_findUnique P;
     str_trim := str_trim P; str_toLowerCase := str_toLowerCase P |}.

(** The persistence layer hands back the row it stored: the created row
    carries the email, the password and the role that were submitted. *)
Definition create_returns_data (P : Platform) : Prop :=
  forall email password role db row db',
    prisma_create P (user_data email password role) db = Ok (row, db') ->
    prop row "email" = Ok email /\
    prop row "password" = Ok password /\
    prop row "role" = Ok role.

(** *** Headers without a bearer token

    The header is absent, or it is a single word, or nothing but the end of
    the header or another space follows the space after its first word. *)

Fixpoint has_space (s : string) : bool :=
  match s with
  | EmptyString => false
  | String c r => (Ascii.eqb c " " || has_space r)%bool
  end.

Inductive NoBearer : option string -> Prop :=
| NoBearer_absent : NoBearer None
| NoBearer_word w : has_space w = false -> NoBearer (Some w)
| NoBearer_end w : has_space w = false -> NoBearer (Some (w ++ " "))
| NoBearer_gap w rest : has_space w = false -> NoBearer (Some (w ++ "  " ++ rest)).

(** ** A test platform

    Stand-ins for the packages, used to run the programs on concrete
    requests: tokens are looked up in a fixed table, the hash is a tagged
    copy of the password, the user table is a list of rows with a unique
    [email] and ids counted from 1, and the string methods are those of
    ASCII strings. *)

Module Fixture.

Definition field (data : value) (k : string) : value :=
  match prop data k with
  | Ok v => v
  | Throw _ => VUndef
  end.

Definition environment (x : string) : value :=
  if (x =? "ACCESS_TOKEN_SECRET")%string then VStr "access-secret"
  else if (x =? "REFRESH_TOKEN_SECRET")%string then VStr "refresh-secret"
  else VUndef.

Definition lifetime (payload : value) : string :=
  match field payload "iat", field payload "exp" with
  | VNum i, VNum e => if e - i =? 86400 then "1d"
                      else if e - i =? 30 * 86400 then "30d" else "other"
  | _, _ => "none"
  end.

Definition encode_stub (payload secret : value) : Result string :=
  match secret with
  | VStr k => if truthy secret then Ok (k ++ "/" ++ lifetime payload)
              else Throw (Error "secretOrPrivateKey must have a value")
  | _ => Throw (Error "secretOrPrivateKey must have a value")
  end.

Definition verify_stub (token : string) (secret : value) : VerifyResult :=
  if (token =? "refresh-of-user-1")%string then
    match secret with
    | VStr "refresh-secret" =>
        VerifyOk (VObj [("userId", VNum 1); ("role", VStr "user");
                        ("iat", VNum 1700000000); ("exp", VNum 1702592000)])
    | _ => VerifyErr (JsonWebTokenError "invalid signature")
    end
  else if (token =? "refresh-expired")%string then VerifyErr TokenExpiredError
  else VerifyErr (JsonWebTokenError "jwt malformed").

Definition hash_stub (s : string) (rounds : Z) : string := "$2a$10$" ++ s.

Definition compare_stub (s h : string) : Result bool :=
  Ok (h =? "$2a$10$" ++ s)%string.

Definition row_email (row : value) : value :=
  match prop row "email" with
  | Ok v => v
  | Throw _ => VUndef
  end.

Definition has_email (e : string) (row : value) : bool :=
  match row_email row with
  | VStr e' => (e =? e')%string
  | _ => false
  end.

Definition create_stub (data : value) (db : list value) : Result (value * list value) :=
  match field data "email" with
  | VStr e =>
      if existsb (has_email e) db then
        Throw (Error "Unique constraint failed on the fields: (`email`)")
      else
        let row := VObj [("id", VNum (Z.of_nat (length db) + 1));
                         ("email", VStr e);
                         ("password", field data "password");
                         ("role", field data "role")] in
        Ok (row, (db ++ [row])%list)
  | _ => Throw (Error "Argument `email` is missing.")
  end.

Definition findUnique_stub (email : value) (db : list value) : Result value :=
  match email with
  | VStr e => match find (has_email e) db with
              | Some row => Ok row
              | None => Ok VNull
              end
  | _ => Throw (Error "Argument `where` needs at least one of `id` or `email` arguments.")
  end.

Definition platform : Platform :=
  {| DB := list value; env := environment; now := 1700000000;
     jwt_encode := encode_stub; jwt_verify := verify_stub;
     bcrypt_hashfn := hash_stub; bcrypt_cmpfn := compare_stub;
     prisma_create := create_stub; prisma_findUnique := findUnique_stub;
     str_trim := ascii_trim; str_toLowerCase := ascii_toLowerCase |}.

Definition request (authorization : option string) (b : value) : Req :=
  {| req_headers := match authorization with
                    | Some h => [("host", "localhost:3000"); ("authorization", h)]
                    | None => [("host", "localhost:3000")]
                    end;
     req_body := b;
     req_user := VUndef |}.

Definition credentials (email password : string) : value :=
  VObj [("email", VStr email); ("password", VStr password)].

(** The user table after [a@x.com] registered with password [pw1]. *)
Definition one_user : list value :=
  [VObj [("id", VNum 1); ("email", VStr "a@x.com");
         ("password", VStr "$2a$10$pw1"); ("role", VStr "user")]].

End Fixture.

(** ** The earlier revision of [app.js]

    The file without the middleware: its register handler destructures
    [passwords] from the body and its login handler issues the access token
    only. *)

Section Earlier.

Context (P : Platform).

Let D : Type := DB P.

Definition register_v0 : M D unit :=
  req <- get_req ;;
  email <- lift (prop (req_body req) "email") ;;
  passwords <- lift (prop (req_body req) "passwords") ;;
  let role := VStr "user" in
  password <- bcrypt_hash P passwords 10 ;;
  try_catch
    (newUser <- user_create P (VObj [("email", email); ("password", VStr password);
                                     ("role", role)]) ;;
     res_status_json 201 newUser)
    (fun err => res_status_json 500 (VObj [("error", VStr (message err))])).

Definition login_v0 : M D unit :=
  req <- get_req ;;
  email <- lift (prop (req_body req) "email") ;;
  password <- lift (prop (req_body req) "password") ;;
  try_catch
    (user <- user_findUnique P email ;;
     if negb (truthy user) then
       res_status_json 400 (VObj [("message", VStr "Utilisateur introuvable")])
     else
       stored <- lift (prop user "password") ;;
       isValid <- bcrypt_compare P password stored ;;
       if negb isValid then
         res_status_json 400 (VObj [("message", VStr "Mot de passe incorrect")])
       else
         id <- lift (prop user "id") ;;
         role <- lift (prop user "role") ;;
         accessToken <- sign P (VObj [("userId", id); ("role", role)])
                             (env P "ACCESS_TOKEN_SECRET") {| expiresIn := "1d" |} ;;
         res_json (VObj [("message", VStr "Connexion réussie");
                         ("accessToken", VStr accessToken)]))
    (fun err => res_status_json 500 (VObj [("error", VStr (message err))])).

End Earlier.

(** ** The catalog routes of [app.js]

    The handlers that read, update and delete one book, author or category
    by the [:id] of the path, and the one that creates a category.  The
    handlers that list a table or build a [Date] are not modelled.

    [Table] is what the handlers use of [prisma.book], [prisma.author] and
    [prisma.category]; the [id] they pass is the result of [parseInt], with
    [None] for [NaN]. *)

Record Table (D : Type) : Type := {
  t_findUnique : option Z -> D -> Result value;
  t_create : value -> D -> Result (value * D);
  t_update : option Z -> value -> D -> Result (value * D);
  t_delete : option Z -> D -> Result (value * D)
}.
Arguments t_findUnique {D} t.
Arguments t_create {D} t.
Arguments t_update {D} t.
Arguments t_delete {D} t.

(** What the catalog routes are linked with: the runtime's [parseInt] and
    the three tables. *)
Record Catalog (D : Type) : Type := {
  parseInt : string -> option Z;
  book : Table D;
  author : Table D;
  category : Table D
}.
Arguments parseInt {D} c.
Arguments book {D} c.
Arguments author {D} c.
Arguments category {D} c.

(** [await] of a read and of a write of the database. *)
Definition db_read {D} (f : D -> Result value) : M D value :=
  fun s => (f (st_db s), s).

Definition db_write {D} (f : D -> Result (value * D)) : M D value :=
  fun s => match f (st_db s) with
           | Ok (row, db') => (Ok row, with_db s db')
           | Throw e => (Throw e, s)
           end.

Section CatalogHandlers.

Context {D : Type} (C : Catalog D).

(** [app.get('/api/v1/<table>/:id', ...)]; [id_param] is [req.params.id]. *)
Definition get_by_id (T : Table D) (not_found : string) (id_param : string) : M D unit :=
  let id := parseInt C id_param in
  try_catch
    (row <- db_read (t_findUnique T id) ;;
     if negb (truthy row) then
       res_status_json 404 (VObj [("message", VStr not_found)])
     else res_json row)
    (fun err => res_status_json 500 (VObj [("error", VStr (message err))])).

(** [app.put('/api/v1/<table>/:id', ...)] *)
Definition put_by_id (T : Table D) (id_param : string) : M D unit :=
  let id := parseInt C id_param in
  req <- get_req ;;
  let data := req_body req in
  try_catch
    (updated <- db_write (t_update T id data) ;;
     res_json updated)
    (fun err => res_status_json 500 (VObj [("error", VStr (message err))])).

(** [app.delete('/api/v1/<table>/:id', ...)] *)
Definition delete_by_id (T : Table D) (deleted : string) (id_param : string) : M D unit :=
  let id := parseInt C id_param in
  try_catch
    (_ <- db_write (t_delete T id) ;;
     res_json (VObj [("message", VStr deleted)]))
    (fun err => res_status_json 500 (VObj [("error", VStr (message err))])).

Definition get_book : string -> M D unit := get_by_id (book C) "Livre non trouvé".
Definition get_author : string -> M D unit := get_by_id (author C) "Auteur non trouvé".
Definition get_category : string -> M D unit := get_by_id (category C) "Catégorie non trouvé".

Definition put_book : string -> M D unit := put_by_id (book C).
Definition put_author : string -> M D unit := put_by_id (author C).
Definition put_category : string -> M D unit := put_by_id (category C).

Definition delete_book : string -> M D unit :=
  delete_by_id (book C) "Livre supprimé avec succès".
Definition delete_author : string -> M D unit :=
  delete_by_id (author C) "Auteur supprimé avec succès".
Definition delete_category : string -> M D unit :=
  delete_by_id (category C) "Catégorie supprimé avec succès".

(** [app.post('/api/v1/categories', ...)]: the destructuring is in front
    of the [try] block. *)
Definition post_category : M D unit :=
  req <- get_req ;;
  name <- lift (prop (req_body req) "name") ;;
  try_catch
    (newCategory <- db_write (t_create (category C) (VObj [("name", name)])) ;;
     res_status_json 201 newCategory)
    (fun err => res_status_json 500 (VObj [("error", VStr (message err))])).

End CatalogHandlers.

(** A route [app.<verb>(path, authenticateToken, authorizeRoles('admin'),
    handler)].  [middleware/auth.js] is not among the sources:
    [authenticateToken] is any stage. *)
Definition admin_route (P : Platform) (authenticateToken handler : M (DB P) unit)
  : St (DB P) -> Result unit * St (DB P) :=
  run_route [authenticateToken; authorizeRoles P ["admin"]; handler].

(** The calls a request adds to those of the state it starts in. *)
Definition is_sign (c : Call) : bool :=
  match c with
  | CallSign _ _ _ => true
  | _ => false
  end.

Definition is_create (c : Call) : bool :=
  match c with
  | CallCreate _ => true
  | _ => false
  end.

(** ** A test catalog

    Stand-ins for the tables, over the same database as the test platform:
    one list of rows, found by their [id]. *)

Module CatalogFixture.

Fixpoint parse_decimal (acc : Z) (s : string) : option Z :=
  match s with
  | EmptyString => Some acc
  | String c r => match digit c with
                  | Some d => parse_decimal (10 * acc + d) r
                  | None => None
                  end
  end.

Definition parseInt_stub (s : string) : option Z :=
  match s with
  | EmptyString => None
  | _ => parse_decimal 0 s
  end.

Definition has_id (n : Z) (row : value) : bool :=
  match Fixture.field row "id" with
  | VNum m => n =? m
  | _ => false
  end.

Definition find_stub (id : option Z) (db : list value) : Result value :=
  match id with
  | Some n => match find (has_id n) db with
              | Some row => Ok row
              | None => Ok VNull
              end
  | None => Throw (Error "Argument `id` is missing.")
  end.

Definition create_stub (data : value) (db : list value) : Result (value * list value) :=
  Ok (data, (db ++ [data])%list).

Definition update_stub (id : option Z) (data : value) (db : list value)
  : Result (value * list value) :=
  match id with
  | Some n => if existsb (has_id n) db
              then Ok (data, map (fun row => if has_id n row then data else row) db)
              else Throw (Error "Record to update not found.")
  | None => Throw (Error "Argument `id` is missing.")
  end.

Definition delete_stub (id : option Z) (db : list value) : Result (value * list value) :=
  match id with
  | Some n => match find (has_id n) db with
              | Some row => Ok (row, filter (fun r => negb (has_id n r)) db)
              | None => Throw (Error "Record to delete does not exist.")
              end
  | None => Throw (Error "Argument `id` is missing.")
  end.

Definition table : Table (list value) :=
  {| t_findUnique := find_stub; t_create := create_stub;
     t_update := update_stub; t_delete := delete_stub |}.

Definition catalog : Catalog (list value) :=
  {| parseInt := parseInt_stub; book := table; author := table; category := table |}.

(** A stage that stands for [authenticateToken] on a request it accepts:
    it stores the claims and calls [next]. *)
Definition accept (user : value) : M (list value) unit :=
  (set_req_user user ;; next)%js.

Definition categories : list value :=
  [VObj [("id", VNum 1); ("name", VStr "Roman")];
   VObj [("id", VNum 2); ("name", VStr "Essai")]].

End CatalogFixture.

(** * Properties *)

(** ** Strings: [ascii_toLowerCase] decides case-insensitive equality *)

Lemma nat_of_lower_char (c : ascii) :
  nat_of_ascii (ascii_lower c) =
  if ascii_upper c then (nat_of_ascii c + 32)%nat else nat_of_ascii c.
Proof.
  unfold ascii_lower. destruct (ascii_upper c) eqn:U; [|reflexivity].
  apply nat_ascii_embedding.
  unfold ascii_upper in U. apply andb_true_iff in U as [_ U].
  apply Nat.leb_le in U. lia.
Qed.

Lemma lower_char_same_letter (a b : ascii) :
  ascii_lower a = ascii_lower b <-> same_letter a b.
Proof.
  assert (inj : forall x y, nat_of_ascii x = nat_of_ascii y -> x = y).
  { intros x y E. rewrite <- (ascii_nat_embedding x), <- (ascii_nat_embedding y).
    now rewrite E. }
  unfold same_letter. split.
  - intros E. apply (f_equal nat_of_ascii) in E.
    rewrite !nat_of_lower_char in E.
    destruct (ascii_upper a) eqn:Ua, (ascii_upper b) eqn:Ub.
    + left. apply inj. lia.
    + right. left. split; [reflexivity | lia].
    + right. right. split; [reflexivity | lia].
    + left. now apply inj.
  - intros [E | [[U E] | [U E]]].
    + now subst.
    + apply inj. rewrite !nat_of_lower_char, U.
      assert (Ub : ascii_upper b = false).
      { unfold ascii_upper in *. rewrite E.
        apply andb_true_iff in U as [U1 U2]. apply Nat.leb_le in U1, U2.
        apply andb_false_iff. right. apply Nat.leb_gt. lia. }
      rewrite Ub. lia.
    + apply inj. rewrite !nat_of_lower_char, U.
      assert (Ua : ascii_upper a = false).
      { unfold ascii_upper in *. rewrite E.
        apply andb_true_iff in U as [U1 U2]. apply Nat.leb_le in U1, U2.
        apply andb_false_iff. right. apply Nat.leb_gt. lia. }
      rewrite Ua. lia.
Qed.

Lemma toLowerCase_CiEq (s t : string) :
  ascii_toLowerCase s = ascii_toLowerCase t <-> CiEq s t.
Proof.
  revert t. induction s as [|a s IH]; intros [|b t]; simpl; split; intros H;
    try discriminate; try constructor; try solve [inversion H].
  - injection H as Hc Hs. now apply lower_char_same_letter.
  - injection H as Hc Hs. now apply IH.
  - inversion H; subst. f_equal.
    + now apply lower_char_same_letter.
    + now apply IH.
Qed.

Lemma includes_In (a : list string) (x : string) :
  includes a x = true <-> In x a.
Proof.
  unfold includes. rewrite existsb_exists. split.
  - intros [y [Hy E]]. apply String.eqb_eq in E. now subst.
  - intros H. exists x. split; [assumption | apply String.eqb_refl].
Qed.

(** ** Strings: [ascii_trim] removes exactly the surrounding white space *)

Lemma trimStart_split (s : string) :
  exists l, s = l ++ ascii_trimStart s /\ all_ws l = true /\ not_ws (first_char (ascii_trimStart s)).
Proof.
  induction s as [|c s [l [E [W F]]]]; simpl.
  - exists EmptyString. repeat split.
  - destruct (ascii_ws c) eqn:C.
    + exists (String c l). simpl. rewrite C, W. repeat split; [now f_equal | assumption].
    + exists EmptyString. simpl. repeat split. assumption.
Qed.

Lemma trimEnd_split (s : string) :
  exists k, s = ascii_trimEnd s ++ k /\ all_ws k = true /\ not_ws (last_char (ascii_trimEnd s)).
Proof.
  induction s as [|c s [k [E [W L]]]]; simpl.
  - exists EmptyString. repeat split.
  - destruct (ascii_trimEnd s) as [|d r] eqn:T.
    + destruct (ascii_ws c) eqn:C.
      * exists (String c k). simpl in *. rewrite C, W. subst s. repeat split.
      * exists k. simpl in *. subst s. repeat split; assumption.
    + exists k. split; [| split; [assumption|]].
      * simpl. now rewrite E at 1.
      * simpl in *. destruct r; assumption.
Qed.

Lemma first_char_trimEnd (s : string) :
  not_ws (first_char s) -> not_ws (first_char (ascii_trimEnd s)).
Proof.
  destruct s as [|c s]; simpl; [trivial|].
  intros C. destruct (ascii_trimEnd s); simpl; [rewrite C|]; simpl; assumption.
Qed.

Lemma trim_Trimmed (r : string) : Trimmed r (ascii_trim r).
Proof.
  unfold Trimmed, ascii_trim.
  destruct (trimStart_split r) as [l [E [W F]]].
  destruct (trimEnd_split (ascii_trimStart r)) as [k [E' [W' L]]].
  exists l, k. repeat split; try assumption.
  - now rewrite <- E'.
  - now apply first_char_trimEnd.
Qed.

Lemma trimStart_ws_app (l x : string) :
  all_ws l = true -> ascii_trimStart (l ++ x) = ascii_trimStart x.
Proof.
  induction l as [|c l IH]; simpl; [reflexivity|].
  intros H. apply andb_true_iff in H as [C W]. rewrite C. now apply IH.
Qed.

Lemma trimStart_ws (k : string) : all_ws k = true -> ascii_trimStart k = EmptyString.
Proof.
  induction k as [|c k IH]; simpl; [reflexivity|].
  intros H. apply andb_true_iff in H as [C W]. rewrite C. now apply IH.
Qed.

Lemma trimStart_first (x : string) :
  not_ws (first_char x) -> ascii_trimStart x = x.
Proof.
  destruct x as [|c x]; simpl; [reflexivity|]. now intros ->.
Qed.

Lemma trimEnd_ws (k : string) : all_ws k = true -> ascii_trimEnd k = EmptyString.
Proof.
  induction k as [|c k IH]; simpl; [reflexivity|].
  intros H. apply andb_true_iff in H as [C W]. now rewrite (IH W), C.
Qed.

Lemma trimEnd_app_ws (t k : string) :
  all_ws k = true -> not_ws (last_char t) -> ascii_trimEnd (t ++ k) = t.
Proof.
  intros W. induction t as [|c t IH]; simpl.
  - intros _. now apply trimEnd_ws.
  - destruct t as [|d t].
    + simpl. intros C. now rewrite (trimEnd_ws k W), C.
    + intros L. rewrite (IH L). reflexivity.
Qed.

Lemma first_char_app (t k : string) :
  t <> EmptyString -> first_char (t ++ k) = first_char t.
Proof. destruct t; simpl; [congruence | reflexivity]. Qed.

Lemma Trimmed_trim (r t : string) : Trimmed r t -> t = ascii_trim r.
Proof.
  intros [l [k [E [Wl [Wk [F L]]]]]]. subst r. unfold ascii_trim.
  rewrite (trimStart_ws_app l _ Wl).
  destruct t as [|c t].
  - simpl. now rewrite (trimStart_ws k Wk).
  - rewrite trimStart_first.
    + symmetry. now apply trimEnd_app_ws.
    + rewrite first_char_app by discriminate. assumption.
Qed.

(** The test of [authorizeRoles] is the allowed-role relation. *)
Lemma role_test_allowed (allowedRoles : list string) (r : string) :
  includes (map ascii_toLowerCase allowedRoles) (ascii_toLowerCase (ascii_trim r)) = true
  <-> role_allowed allowedRoles r.
Proof.
  rewrite includes_In, in_map_iff. unfold role_allowed. split.
  - intros [a [E Ha]]. exists (ascii_trim r), a. repeat split.
    + apply trim_Trimmed.
    + assumption.
    + apply toLowerCase_CiEq. now symmetry.
  - intros [t [a [T [Ha C]]]]. apply Trimmed_trim in T. subst t.
    exists a. split; [| assumption]. symmetry. now apply toLowerCase_CiEq.
Qed.

(** [ascii_trim] keeps a string of ASCII characters one. *)
Lemma is_ascii_trimStart (s : string) :
  is_ascii s = true -> is_ascii (ascii_trimStart s) = true.
Proof.
  induction s as [|c s IH]; simpl; [reflexivity|].
  intros H. destruct (ascii_ws c); [| exact H].
  apply andb_true_iff in H as [_ H]. now apply IH.
Qed.

Lemma is_ascii_trimEnd (s : string) :
  is_ascii s = true -> is_ascii (ascii_trimEnd s) = true.
Proof.
  induction s as [|c s IH]; simpl; [reflexivity|].
  intros H. apply andb_true_iff in H as [C H]. specialize (IH H).
  destruct (ascii_trimEnd s) as [|d r].
  - destruct (ascii_ws c); simpl; [reflexivity | now rewrite C].
  - simpl. rewrite C. exact IH.
Qed.

Lemma is_ascii_trim (s : string) : is_ascii s = true -> is_ascii (ascii_trim s) = true.
Proof. intros H. unfold ascii_trim. now apply is_ascii_trimEnd, is_ascii_trimStart. Qed.

(** The test of [authorizeRoles], on the methods of the runtime. *)
Lemma role_test_matches (P : Platform) (allowedRoles : list string) (r : string) :
  includes (map (str_toLowerCase P) allowedRoles) (str_toLowerCase P (str_trim P r)) = true
  <-> role_matches P allowedRoles r.
Proof.
  rewrite includes_In, in_map_iff. unfold role_matches. split.
  - intros [a [E Ha]]. exists a. now split.
  - intros [a [Ha E]]. exists a. now split.
Qed.

(** On strings of ASCII characters, matching is being allowed. *)
Lemma role_matches_ascii (P : Platform) (allowedRoles : list string) (r : string) :
  ascii_runtime P ->
  is_ascii r = true ->
  Forall (fun a => is_ascii a = true) allowedRoles ->
  (role_matches P allowedRoles r <-> role_allowed allowedRoles r).
Proof.
  intros L Hr Hs.
  destruct (L r Hr) as [Tr _].
  destruct (L (ascii_trim r) (is_ascii_trim r Hr)) as [_ Lo].
  rewrite <- role_test_allowed, includes_In, in_map_iff.
  unfold role_matches. rewrite Tr, Lo.
  rewrite Forall_forall in Hs.
  split; intros [a [A B]].
  - exists a. split; [| exact A]. destruct (L a (Hs a A)) as [_ La]. now rewrite <- La.
  - exists a. split; [exact B|]. destruct (L a (Hs a B)) as [_ La]. now rewrite La.
Qed.

(** ** Strings: [split] and the bearer token *)

Lemma split_nonempty (sep : ascii) (s : string) : split sep s <> [].
Proof.
  destruct s as [|c s]; simpl; [discriminate|].
  destruct (Ascii.eqb c sep); [discriminate|].
  destruct (split sep s); discriminate.
Qed.

Lemma split_word (w : string) : has_space w = false -> split " " w = [w].
Proof.
  induction w as [|c w IH]; simpl; [reflexivity|].
  intros H. apply orb_false_iff in H as [C W]. rewrite C, (IH W). reflexivity.
Qed.

Lemma split_word_space (w rest : string) :
  has_space w = false -> split " " (w ++ String " " rest) = w :: split " " rest.
Proof.
  induction w as [|c w IH]; simpl; [reflexivity|].
  intros H. apply orb_false_iff in H as [C W]. rewrite C, (IH W). reflexivity.
Qed.

Lemma first_space (s : string) :
  has_space s = true ->
  exists w rest, s = w ++ String " " rest /\ has_space w = false.
Proof.
  induction s as [|c s IH]; simpl; [discriminate|].
  destruct (Ascii.eqb c " ") eqn:C.
  - intros _. apply Ascii.eqb_eq in C. subst c. now exists EmptyString, s.
  - simpl. intros H. destruct (IH H) as [w [rest [E W]]].
    exists (String c w), rest. simpl. rewrite C, W, E. now split.
Qed.

Lemma split_head_empty (s x : string) (xs : list string) :
  split " " s = x :: xs -> x = EmptyString ->
  s = EmptyString \/ exists rest, s = String " " rest.
Proof.
  destruct s as [|c s]; simpl; [now left|].
  destruct (Ascii.eqb c " ") eqn:C.
  - intros _ _. right. apply Ascii.eqb_eq in C. subst c. now exists s.
  - destruct (split " " s); intros E; injection E as E _; subst x; discriminate.
Qed.

(** The value the middleware reads from the header is falsy exactly for
    the headers without a bearer token. *)
Lemma bearer_falsy_NoBearer (headers : list (string * string)) (b : value) (u : value) :
  truthy (bearer (header {| req_headers := headers; req_body := b; req_user := u |}
                         "authorization")) = false
  <-> NoBearer (assoc "authorization" headers).
Proof.
  unfold header. simpl. destruct (assoc "authorization" headers) as [h|].
  2:{ split; [constructor | reflexivity]. }
  unfold bearer. simpl. destruct (h =? "")%string eqn:E; simpl.
  { apply String.eqb_eq in E. subst h. split; [| reflexivity].
    intros _. now apply NoBearer_word. }
  split.
  - intros F. destruct (has_space h) eqn:Hs.
    + destruct (first_space h Hs) as [w [rest [-> W]]].
      rewrite (split_word_space w rest W) in F. unfold index in F. simpl in F.
      destruct (split " " rest) as [|x xs] eqn:Sp; [now apply split_nonempty in Sp|].
      simpl in F. apply negb_false_iff, String.eqb_eq in F.
      destruct (split_head_empty rest x xs Sp F) as [-> | [rest' ->]].
      * now apply (NoBearer_end w).
      * now apply (NoBearer_gap w rest').
    + now apply NoBearer_word.
  - intros N. inversion N as [| w W | w W | w rest W]; subst.
    + rewrite (split_word h W). reflexivity.
    + change (w ++ " ") with (w ++ String " " EmptyString).
      rewrite (split_word_space w _ W). reflexivity.
    + change (w ++ "  " ++ rest) with (w ++ String " " (String " " rest)).
      rewrite (split_word_space w _ W). reflexivity.
Qed.

(** A header [scheme token] yields [token]. *)
Lemma bearer_scheme_token (w t : string) :
  has_space w = false -> has_space t = false ->
  bearer (VStr (w ++ " " ++ t)) = VStr t.
Proof.
  intros W T. unfold bearer.
  assert (truthy (VStr (w ++ " " ++ t)) = true) as ->.
  { simpl. destruct w; reflexivity. }
  change (w ++ " " ++ t) with (w ++ String " " t).
  rewrite (split_word_space w t W), (split_word t T). reflexivity.
Qed.

(** ** The refresh-token middleware *)

Ltac run :=
  unfold bind, ret, throw, lift, try_catch, get_req, log_call, set_req_user,
    res_json, res_status_json, next, console_error, ident in *.

Section Middleware.

Variable P : Platform.

Implicit Types (st : St (DB P)) (rest : list (M (DB P) unit)).

(** What the middleware does, by cases on the token read from the header
    and on the verdict of [jwt.verify]. *)
Lemma authenticateRefreshToken_no_token st :
  st_res st = None ->
  truthy (bearer (header (st_req st) "authorization")) = false ->
  authenticateRefreshToken P st =
    (Ok tt, with_response st 401 (VObj [("error", VStr "Token manquant")])).
Proof.
  intros R F. unfold authenticateRefreshToken. run. rewrite F. simpl. now rewrite R.
Qed.

Lemma authenticateRefreshToken_rejected st t err :
  st_res st = None ->
  bearer (header (st_req st) "authorization") = VStr t -> t <> EmptyString ->
  jwt_verify P t (env P "REFRESH_TOKEN_SECRET") = VerifyErr err ->
  authenticateRefreshToken P st =
    (Ok tt, with_response (with_call st (CallVerify t (env P "REFRESH_TOKEN_SECRET")))
                          403 (VObj [("error", VStr "Token invalide")])).
Proof.
  intros R B N V. unfold authenticateRefreshToken. run. rewrite B. simpl.
  destruct (t =? "")%string eqn:E; [apply String.eqb_eq in E; contradiction|].
  simpl. unfold verify. run. rewrite V. simpl. now rewrite R.
Qed.

Lemma authenticateRefreshToken_accepted st t user :
  bearer (header (st_req st) "authorization") = VStr t -> t <> EmptyString ->
  jwt_verify P t (env P "REFRESH_TOKEN_SECRET") = VerifyOk user ->
  authenticateRefreshToken P st =
    (Ok tt, with_next (with_req (with_call st (CallVerify t (env P "REFRESH_TOKEN_SECRET")))
                                (set_user (st_req st) user))).
Proof.
  intros B N V. unfold authenticateRefreshToken. run. rewrite B. simpl.
  destruct (t =? "")%string eqn:E; [apply String.eqb_eq in E; contradiction|].
  simpl. unfold verify. run. rewrite V. reflexivity.
Qed.

(** C3. A request whose Authorization header is absent, or carries no
    token after the scheme word, is answered 401 by the token-verifying
    middleware; [next] is not called and, whatever stages follow the
    middleware in the route, none of them runs. *)
Theorem missing_token_401 st rest :
  st_res st = None ->
  NoBearer (assoc "authorization" (req_headers (st_req st))) ->
  authenticateRefreshToken P st =
    (Ok tt, with_response st 401 (VObj [("error", VStr "Token manquant")])) /\
  run_route (authenticateRefreshToken P :: rest) st =
    (Ok tt, with_response st 401 (VObj [("error", VStr "Token manquant")])) /\
  st_next (snd (run_route (authenticateRefreshToken P :: rest) st)) = st_next st.
Proof.
  intros R N.
  assert (F : truthy (bearer (header (st_req st) "authorization")) = false).
  { destruct (st_req st) as [hs b u]. now apply bearer_falsy_NoBearer. }
  pose proof (authenticateRefreshToken_no_token st R F) as E.
  split; [exact E|].
  simpl. rewrite E. simpl. rewrite Nat.ltb_irrefl. now split.
Qed.

(** C4. A request presenting a token that [jwt.verify] rejects is answered
    403 with the same body whatever the error is (expired, bad signature,
    malformed); [next] is not called and no later stage of the route runs. *)
Theorem rejected_token_403 st rest t err :
  st_res st = None ->
  bearer (header (st_req st) "authorization") = VStr t -> t <> EmptyString ->
  jwt_verify P t (env P "REFRESH_TOKEN_SECRET") = VerifyErr err ->
  run_route (authenticateRefreshToken P :: rest) st =
    (Ok tt, with_response (with_call st (CallVerify t (env P "REFRESH_TOKEN_SECRET")))
                          403 (VObj [("error", VStr "Token invalide")])) /\
  st_next (snd (run_route (authenticateRefreshToken P :: rest) st)) = st_next st /\
  st_req (snd (run_route (authenticateRefreshToken P :: rest) st)) = st_req st.
Proof.
  intros R B N V.
  pose proof (authenticateRefreshToken_rejected st t err R B N V) as E.
  simpl. rewrite E. simpl. rewrite Nat.ltb_irrefl. now repeat split.
Qed.

End Middleware.

(** ** The role authorization middleware *)

Section Roles.

Variable P : Platform.

Implicit Types (st : St (DB P)) (rest : list (M (DB P) unit)).

Lemma authorizeRoles_string_role st allowedRoles r :
  truthy (req_user (st_req st)) = true ->
  prop (req_user (st_req st)) "role" = Ok (VStr r) ->
  authorizeRoles P allowedRoles st =
    if includes (map (str_toLowerCase P) allowedRoles) (str_toLowerCase P (str_trim P r))
    then (Ok tt, with_next st)
    else res_status_json 403 (VObj [("error", VStr "Accès interdit pour ce rôle")]) st.
Proof.
  intros T R. unfold authorizeRoles. run. rewrite T, R. simpl.
  now destruct (includes _ _).
Qed.

(** C5. For an identity context whose role is the string [r] and allowed
    roles [allowedRoles], the role middleware calls [next] exactly when [r]
    trimmed equals an allowed role up to case, that is when the two are the
    same once lowered; then the request, identity context included, is left
    as it was and the route goes on with the stages that follow.  Otherwise
    it answers 403 without calling [next], and no later stage runs.  For
    strings of ASCII characters, this is: [r] without the white space
    around it is an allowed role, letter by letter up to case. *)
Theorem authorizeRoles_allows_exactly st rest allowedRoles r :
  st_res st = None ->
  truthy (req_user (st_req st)) = true ->
  prop (req_user (st_req st)) "role" = Ok (VStr r) ->
  (role_matches P allowedRoles r ->
     authorizeRoles P allowedRoles st = (Ok tt, with_next st) /\
     st_req (with_next st) = st_req st /\
     run_route (authorizeRoles P allowedRoles :: rest) st = run_route rest (with_next st)) /\
  (~ role_matches P allowedRoles r ->
     authorizeRoles P allowedRoles st =
       (Ok tt, with_response st 403 (VObj [("error", VStr "Accès interdit pour ce rôle")])) /\
     run_route (authorizeRoles P allowedRoles :: rest) st =
       (Ok tt, with_response st 403 (VObj [("error", VStr "Accès interdit pour ce rôle")]))) /\
  (st_next (snd (authorizeRoles P allowedRoles st)) = S (st_next st)
   <-> role_matches P allowedRoles r) /\
  (ascii_runtime P -> is_ascii r = true ->
   Forall (fun a => is_ascii a = true) allowedRoles ->
   (role_matches P allowedRoles r <-> role_allowed allowedRoles r)).
Proof.
  intros N T R.
  pose proof (authorizeRoles_string_role st allowedRoles r T R) as E.
  pose proof (role_test_matches P allowedRoles r) as A.
  assert (G : forall (X Y Z : Prop), X -> Y -> Z -> X /\ Y /\ Z) by tauto.
  split; [| split; [| split]]; [| | | exact (role_matches_ascii P allowedRoles r)].
  - intros Y. apply A in Y. rewrite Y in E.
    split; [exact E | split; [reflexivity|]].
    simpl. rewrite E. simpl.
    assert (Nat.ltb (st_next st) (S (st_next st)) = true) as ->
      by (apply Nat.ltb_lt; lia).
    reflexivity.
  - intros Y.
    destruct (includes (map (str_toLowerCase P) allowedRoles)
                       (str_toLowerCase P (str_trim P r))) eqn:I.
    + exfalso. apply Y, A. reflexivity.
    + unfold res_status_json in E. rewrite N in E.
      split; [exact E|]. simpl. rewrite E. simpl. now rewrite Nat.ltb_irrefl.
  - destruct (includes (map (str_toLowerCase P) allowedRoles)
                       (str_toLowerCase P (str_trim P r))) eqn:I.
    + rewrite E. simpl. split; [intros _; now apply A | reflexivity].
    + unfold res_status_json in E. rewrite N in E. rewrite E. simpl. split.
      * intros Q. exfalso. lia.
      * intros Y. apply A in Y. discriminate.
Qed.

(** C10. When the identity context is present and its [role] is absent or
    is not a string, trimming the role throws a [TypeError]: the middleware
    sends no response and does not call [next]. *)
Theorem authorizeRoles_role_not_string st allowedRoles v :
  truthy (req_user (st_req st)) = true ->
  prop (req_user (st_req st)) "role" = Ok v ->
  (forall s, v <> VStr s) ->
  exists msg, authorizeRoles P allowedRoles st = (Throw (TypeError msg), st).
Proof.
  intros T R N. unfold authorizeRoles. run. rewrite T, R. simpl.
  destruct v; simpl; eauto. now contradiction (N s).
Qed.

(** C9. The first revision of [authorizeRoles] reads [PrismaClient], which
    its module does not bind: every request ends in a [ReferenceError]
    before anything is checked; no response is sent and [next] is not
    called. *)
Theorem authorizeRoles_v1_throws st allowedRoles :
  assoc "PrismaClient" roles_scope = None /\
  authorizeRoles_v1 P allowedRoles st = (Throw (ReferenceError "PrismaClient"), st).
Proof. split; reflexivity. Qed.

End Roles.

(** ** The refresh route *)

Section Refresh.

Variable P : Platform.

Implicit Types (st : St (DB P)).

(** The handler reads [user], which is bound neither in the handler nor in
    [app.js]: whatever the request, the [catch] block answers 500. *)
Lemma refresh_handler_500 st :
  st_res st = None ->
  refresh P st =
    (Ok tt, with_response (with_console st (ReferenceError "user"))
                          500 (VObj [("error", VStr "Erreur serveur")])).
Proof.
  intros R. unfold refresh. run. simpl. now rewrite R.
Qed.

(** C1 (the code departs from it). A request to the refresh route with a
    refresh token that [jwt.verify] accepts gets past the middleware, which
    stores the decoded claims in [req.user]; the handler then fails on the
    unbound [user] and answers 500: no access token is signed. *)
Theorem refresh_route_valid_token_500 st t user :
  st_res st = None ->
  bearer (header (st_req st) "authorization") = VStr t -> t <> EmptyString ->
  jwt_verify P t (env P "REFRESH_TOKEN_SECRET") = VerifyOk user ->
  refresh_route P st =
    (Ok tt,
     with_response
       (with_console
          (with_next (with_req (with_call st (CallVerify t (env P "REFRESH_TOKEN_SECRET")))
                               (set_user (st_req st) user)))
          (ReferenceError "user"))
       500 (VObj [("error", VStr "Erreur serveur")])) /\
  st_calls (snd (refresh_route P st)) =
    (st_calls st ++ [CallVerify t (env P "REFRESH_TOKEN_SECRET")])%list.
Proof.
  intros R B N V. unfold refresh_route.
  pose proof (authenticateRefreshToken_accepted P st t user B N V) as E.
  assert (F : run_route [authenticateRefreshToken P; refresh P] st =
              refresh P (with_next (with_req (with_call st (CallVerify t (env P "REFRESH_TOKEN_SECRET")))
                                             (set_user (st_req st) user)))).
  { simpl. rewrite E. simpl.
    assert (Nat.ltb (st_next st) (S (st_next st)) = true) as ->
      by (apply Nat.ltb_lt; lia).
    rewrite refresh_handler_500 by exact R. simpl.
    now rewrite Nat.ltb_irrefl. }
  rewrite F, refresh_handler_500 by exact R. now split.
Qed.

End Refresh.

(** ** The login route *)

(** Case analysis on the innermost test the hypothesis [H] is stuck on;
    [R] says that no response was sent before. *)
Ltac split_match R H :=
  repeat (match type of H with
          | context [match ?x with _ => _ end] =>
              lazymatch x with
              | context [match _ with _ => _ end] => fail
              | _ => destruct x eqn:?
              end
          end;
          simpl in H; try rewrite R in H; simpl in H;
          try discriminate H; try congruence).

Section Login.

Variable P : Platform.

Implicit Types (st : St (DB P)).

(** A login that finds the user, verifies the password and gets both
    tokens signed answers 200 with the message and the access token. *)
Lemma login_success st email p user h id role a r :
  st_res st = None ->
  prop (req_body (st_req st)) "email" = Ok email ->
  prop (req_body (st_req st)) "password" = Ok (VStr p) ->
  prisma_findUnique P email (st_db st) = Ok user ->
  truthy user = true ->
  prop user "password" = Ok (VStr h) ->
  bcrypt_cmpfn P p h = Ok true ->
  prop user "id" = Ok id ->
  prop user "role" = Ok role ->
  jwt_sign P (claims id role) (env P "ACCESS_TOKEN_SECRET") {| expiresIn := "1d" |} = Ok a ->
  jwt_sign P (claims id role) (env P "REFRESH_TOKEN_SECRET") {| expiresIn := "30d" |} = Ok r ->
  login P st =
    (Ok tt,
     with_response
       {| st_req := st_req st; st_res := st_res st; st_next := st_next st;
          st_db := st_db st;
          st_calls := st_calls st ++ login_calls P email p h id role;
          st_console := st_console st |}
       200 (VObj [("message", VStr "Connexion réussie"); ("accessToken", VStr a)])).
Proof.
  intros R E Pw F T H C I Ro A Rf.
  unfold login, user_findUnique, bcrypt_compare, sign. run.
  rewrite E, Pw. simpl. rewrite F, T. simpl. rewrite H. simpl. rewrite C. simpl.
  rewrite I, Ro. unfold claims in A, Rf. simpl. rewrite A. simpl. rewrite Rf. simpl.
  rewrite R. unfold with_response, login_calls, claims. simpl.
  now rewrite <- !app_assoc.
Qed.


(** C2. A login that finds the user, verifies the password and has both
    tokens signed answers 200; the refresh token was computed (the second
    [jwt.sign] call was made and returned it), yet the body of the response
    holds the message and the access token and nothing else: it has no
    [refreshToken] property. *)
Theorem login_response_omits_refresh_token st email p user h id role a r :
  st_res st = None ->
  prop (req_body (st_req st)) "email" = Ok email ->
  prop (req_body (st_req st)) "password" = Ok (VStr p) ->
  prisma_findUnique P email (st_db st) = Ok user ->
  truthy user = true ->
  prop user "password" = Ok (VStr h) ->
  bcrypt_cmpfn P p h = Ok true ->
  prop user "id" = Ok id ->
  prop user "role" = Ok role ->
  jwt_sign P (claims id role) (env P "ACCESS_TOKEN_SECRET") {| expiresIn := "1d" |} = Ok a ->
  jwt_sign P (claims id role) (env P "REFRESH_TOKEN_SECRET") {| expiresIn := "30d" |} = Ok r ->
  fst (login P st) = Ok tt /\
  In (CallSign (claims id role) (env P "REFRESH_TOKEN_SECRET") {| expiresIn := "30d" |})
     (st_calls (snd (login P st))) /\
  st_res (snd (login P st)) =
    Some {| status := 200;
            body := VObj [("message", VStr "Connexion réussie"); ("accessToken", VStr a)] |} /\
  (forall b, st_res (snd (login P st)) = Some {| status := 200; body := b |} ->
             prop b "refreshToken" = Ok VUndef).
Proof.
  intros R E Pw F T H C I Ro A Rf.
  rewrite (login_success st email p user h id role a r) by assumption.
  simpl. repeat split.
  - apply in_or_app. right. unfold login_calls. simpl. tauto.
  - intros b B. injection B as <-. reflexivity.
Qed.




End Login.

(** ** The register route *)

Section Register.

Variable P : Platform.

Implicit Types (st : St (DB P)).

(** With a string password the handler reaches the [try] block and the
    outcome is the one of [prisma.user.create]. *)
Lemma register_string_password st email p :
  st_res st = None ->
  prop (req_body (st_req st)) "email" = Ok email ->
  prop (req_body (st_req st)) "password" = Ok (VStr p) ->
  let data := user_data email (VStr (bcrypt_hashfn P p 10)) (VStr "user") in
  let st' := with_call (with_call st (CallHash (VStr p) 10)) (CallCreate data) in
  register P st =
    match prisma_create P data (st_db st) with
    | Ok (row, db') => (Ok tt, with_response (with_db st' db') 201 row)
    | Throw e => (Ok tt, with_response st' 500 (VObj [("error", VStr (message e))]))
    end.
Proof.
  intros R E Pw. unfold register, bcrypt_hash, user_create, user_data. run.
  rewrite E, Pw. simpl.
  destruct (prisma_create P _ (st_db st)) as [[row db'] | e]; simpl; now rewrite R.
Qed.

(** A 201 answer of the register handler comes from a string password and
    an accepted record. *)
Lemma register_201_inv st b :
  st_res st = None ->
  st_res (snd (register P st)) = Some {| status := 201; body := b |} ->
  exists email p db',
    prop (req_body (st_req st)) "email" = Ok email /\
    prop (req_body (st_req st)) "password" = Ok (VStr p) /\
    prisma_create P (user_data email (VStr (bcrypt_hashfn P p 10)) (VStr "user")) (st_db st)
      = Ok (b, db').
Proof.
  intros R H.
  unfold register, bcrypt_hash, user_create in H. run. simpl in H.
  split_match R H.
  injection H as <-. subst. unfold user_data. do 3 eexists.
  repeat split; eassumption || reflexivity.
Qed.

(** C6. Whenever the register handler answers 201, the record it handed
    to the persistence layer has role [user] and, as password, the hash
    [bcrypt.hash] returned for the submitted password (which is not the
    submitted password as soon as the hash differs from its input); nothing
    else is handed to the persistence layer, and the body of the response
    is the created row as the persistence layer returned it.  When that layer
    returns the data it stored, the body therefore carries the role [user]
    and the hashed password. *)
Theorem register_created_record st b :
  st_res st = None ->
  st_res (snd (register P st)) = Some {| status := 201; body := b |} ->
  exists email p db',
    prop (req_body (st_req st)) "email" = Ok email /\
    prop (req_body (st_req st)) "password" = Ok (VStr p) /\
    let data := user_data email (VStr (bcrypt_hashfn P p 10)) (VStr "user") in
    prisma_create P data (st_db st) = Ok (b, db') /\
    st_db (snd (register P st)) = db' /\
    st_calls (snd (register P st)) =
      (st_calls st ++ [CallHash (VStr p) 10; CallCreate data])%list /\
    prop data "role" = Ok (VStr "user") /\
    prop data "password" = Ok (VStr (bcrypt_hashfn P p 10)) /\
    (bcrypt_hashfn P p 10 <> p -> prop data "password" <> Ok (VStr p)) /\
    (create_returns_data P ->
       prop b "email" = Ok email /\
       prop b "password" = Ok (VStr (bcrypt_hashfn P p 10)) /\
       prop b "role" = Ok (VStr "user")).
Proof.
  intros R H.
  destruct (register_201_inv st b R H) as (email & p & db' & E & Pw & C).
  exists email, p, db'. split; [exact E | split; [exact Pw|]].
  intros data.
  pose proof (register_string_password st email p R E Pw) as RS.
  cbv zeta in RS. fold data in RS, C. rewrite C in RS. rewrite RS. simpl.
  split; [exact C | split; [reflexivity | split]].
  - now rewrite <- app_assoc.
  - split; [reflexivity | split; [reflexivity | split]].
    + intros D Q. simpl in Q. injection Q as Q. contradiction.
    + intros K. exact (K _ _ _ _ _ _ C).
Qed.

(** C7, as the code has it.  The handler validates nothing itself.  For a
    request whose password is a string, empty or not, and whatever its
    email, the password is hashed and the record is handed to the
    persistence layer: if that layer accepts it the answer is 201 with the
    created row, and if it rejects it the answer is 500 with the message of
    the rejection. *)
Theorem register_does_not_validate st email p :
  st_res st = None ->
  prop (req_body (st_req st)) "email" = Ok email ->
  prop (req_body (st_req st)) "password" = Ok (VStr p) ->
  let data := user_data email (VStr (bcrypt_hashfn P p 10)) (VStr "user") in
  fst (register P st) = Ok tt /\
  (forall row db',
     prisma_create P data (st_db st) = Ok (row, db') ->
     st_res (snd (register P st)) = Some {| status := 201; body := row |}) /\
  (forall e,
     prisma_create P data (st_db st) = Throw e ->
     st_res (snd (register P st)) =
       Some {| status := 500; body := VObj [("error", VStr (message e))] |}).
Proof.
  intros R E Pw data.
  pose proof (register_string_password st email p R E Pw) as RS.
  cbv zeta in RS. fold data in RS. rewrite RS. clear RS.
  destruct (prisma_create P data (st_db st)) as [[row db'] | e]; simpl.
  - split; [reflexivity | split]; intros; [| discriminate].
    match goal with H : Ok _ = Ok _ |- _ => injection H as <- <- end. reflexivity.
  - split; [reflexivity | split]; intros; [discriminate |].
    match goal with H : Throw _ = Throw _ |- _ => injection H as <- end. reflexivity.
Qed.

End Register.

(** ** The programs on concrete requests *)

Section Runs.

Import Fixture.

(** The test platform returns the rows it stores. *)
Lemma fixture_create_returns_data : create_returns_data platform.
Proof.
  intros email password role db row db'. simpl. unfold create_stub, field. simpl.
  destruct email; try discriminate.
  destruct (existsb _ db); [discriminate|].
  intros H. injection H as <- _. repeat split.
Qed.

(** A refresh request with the valid refresh token of user 1. *)
Lemma refresh_route_valid_token_500_run :
  let st := init_st (request (Some "Bearer refresh-of-user-1") VUndef) one_user in
  let user := VObj [("userId", VNum 1); ("role", VStr "user");
                    ("iat", VNum 1700000000); ("exp", VNum 1702592000)] in
  jwt_verify platform "refresh-of-user-1" (env platform "REFRESH_TOKEN_SECRET")
    = VerifyOk user /\
  st_res (snd (refresh_route platform st)) =
    Some {| status := 500; body := VObj [("error", VStr "Erreur serveur")] |} /\
  st_calls (snd (refresh_route platform st)) =
    [CallVerify "refresh-of-user-1" (VStr "refresh-secret")].
Proof.
  intros st user. split; [reflexivity|].
  destruct (refresh_route_valid_token_500 platform st "refresh-of-user-1" user)
    as [E C]; try reflexivity; try discriminate.
  rewrite E. split; reflexivity.
Defined.

(** A refresh request whose header stops after the scheme word. *)
Lemma missing_token_401_run :
  let st := init_st (request (Some "Bearer ") VUndef) one_user in
  st_res st = None /\
  NoBearer (assoc "authorization" (req_headers (st_req st))) /\
  run_route [authenticateRefreshToken platform; refresh platform] st =
    (Ok tt, with_response st 401 (VObj [("error", VStr "Token manquant")])).
Proof.
  intros st.
  assert (R : st_res st = None) by reflexivity.
  assert (N : NoBearer (assoc "authorization" (req_headers (st_req st))))
    by exact (NoBearer_end "Bearer" eq_refl).
  split; [exact R | split; [exact N|]].
  exact (proj1 (proj2 (missing_token_401 platform st [refresh platform] R N))).
Defined.

(** A refresh request with an expired token. *)
Lemma rejected_token_403_run :
  let st := init_st (request (Some "Bearer refresh-expired") VUndef) one_user in
  jwt_verify platform "refresh-expired" (env platform "REFRESH_TOKEN_SECRET")
    = VerifyErr TokenExpiredError /\
  st_res (snd (run_route [authenticateRefreshToken platform; refresh platform] st)) =
    Some {| status := 403; body := VObj [("error", VStr "Token invalide")] |} /\
  st_next (snd (run_route [authenticateRefreshToken platform; refresh platform] st)) = 0%nat.
Proof.
  intros st. split; [reflexivity|].
  destruct (rejected_token_403 platform st [refresh platform] "refresh-expired"
              TokenExpiredError) as [E [N _]]; try reflexivity; try discriminate.
  rewrite E. split; reflexivity.
Defined.

(** On the test platform the string methods are the ASCII ones. *)
Lemma fixture_ascii_runtime : ascii_runtime platform.
Proof. intros s _. split; reflexivity. Qed.

(** The role [ Admin ], with a space on both sides, on a route for [admin]. *)
Lemma authorizeRoles_allows_exactly_run :
  let st := init_st {| req_headers := []; req_body := VUndef;
                       req_user := VObj [("userId", VNum 7); ("role", VStr " Admin ")] |}
                    one_user in
  role_matches platform ["admin"] " Admin " /\
  role_allowed ["admin"] " Admin " /\
  authorizeRoles platform ["admin"] st = (Ok tt, with_next st) /\
  st_req (with_next st) = st_req st.
Proof.
  intros st.
  assert (M : role_matches platform ["admin"] " Admin ")
    by (exists "admin"; split; [now left | reflexivity]).
  destruct (authorizeRoles_allows_exactly platform st [] ["admin"] " Admin ")
    as (Y & _ & _ & Asc); try reflexivity.
  split; [exact M | split].
  - apply Asc; [exact fixture_ascii_runtime | reflexivity | repeat constructor | exact M].
  - destruct (Y M) as [E [Q _]]. split; assumption.
Defined.

(** An identity context without a role. *)
Lemma authorizeRoles_role_not_string_run :
  let st := init_st {| req_headers := []; req_body := VUndef;
                       req_user := VObj [("userId", VNum 7)] |} one_user in
  prop (req_user (st_req st)) "role" = Ok VUndef /\
  exists msg, authorizeRoles platform ["admin"] st = (Throw (TypeError msg), st).
Proof.
  intros st. split; [reflexivity|].
  apply (authorizeRoles_role_not_string platform st ["admin"] VUndef);
    try reflexivity; discriminate.
Defined.

(** The login of the registered user. *)
Lemma login_response_omits_refresh_token_run :
  let st := init_st (request None (credentials "a@x.com" "pw1")) one_user in
  jwt_sign platform (claims (VNum 1) (VStr "user")) (env platform "REFRESH_TOKEN_SECRET")
           {| expiresIn := "30d" |} = Ok "refresh-secret/30d" /\
  st_res (snd (login platform st)) =
    Some {| status := 200;
            body := VObj [("message", VStr "Connexion réussie");
                          ("accessToken", VStr "access-secret/1d")] |}.
Proof.
  intros st. split; [reflexivity|].
  apply (login_response_omits_refresh_token platform st (VStr "a@x.com") "pw1"
           (VObj [("id", VNum 1); ("email", VStr "a@x.com");
                  ("password", VStr "$2a$10$pw1"); ("role", VStr "user")])
           "$2a$10$pw1" (VNum 1) (VStr "user") "access-secret/1d" "refresh-secret/30d");
    reflexivity.
Defined.


(** The registration of [a@x.com] on an empty user table. *)
Lemma register_created_record_run :
  let st := init_st (request None (credentials "a@x.com" "pw1")) [] in
  let b := VObj [("id", VNum 1); ("email", VStr "a@x.com");
                 ("password", VStr "$2a$10$pw1"); ("role", VStr "user")] in
  st_res st = None /\
  st_res (snd (register platform st)) = Some {| status := 201; body := b |} /\
  st_db (snd (register platform st)) = [b] /\
  prop b "role" = Ok (VStr "user").
Proof.
  intros st b.
  assert (R : st_res st = None) by reflexivity.
  assert (H : st_res (snd (register platform st)) = Some {| status := 201; body := b |})
    by reflexivity.
  split; [exact R | split; [exact H|]].
  destruct (register_created_record platform st b R H)
    as (email & p & db' & E & Pw & C & Db & _ & _ & _ & _ & K).
  split.
  - reflexivity.
  - exact (proj2 (proj2 (K fixture_create_returns_data))).
Defined.

(** A registration with an empty email and an empty password. *)
Lemma register_does_not_validate_run :
  let st := init_st (request None (credentials "" "")) [] in
  st_res st = None /\
  prop (req_body (st_req st)) "email" = Ok (VStr "") /\
  prop (req_body (st_req st)) "password" = Ok (VStr "") /\
  st_res (snd (register platform st)) =
    Some {| status := 201;
            body := VObj [("id", VNum 1); ("email", VStr "");
                          ("password", VStr "$2a$10$"); ("role", VStr "user")] |}.
Proof.
  intros st. split; [reflexivity | split; [reflexivity | split; [reflexivity|]]].
  destruct (register_does_not_validate platform st (VStr "") "" eq_refl eq_refl eq_refl)
    as [_ [A _]].
  exact (A _ _ eq_refl).
Defined.

(** The register handler accepts empty credentials: on an empty user table
    the request [{email: "", password: ""}] is answered 201.  A request
    without a password is not answered at all: the rejection of
    [bcrypt.hash] leaves the handler in front of the [try] block. *)
Lemma register_empty_accepted_missing_unanswered :
  st_res (snd (register platform (init_st (request None (credentials "" "")) []))) =
    Some {| status := 201;
            body := VObj [("id", VNum 1); ("email", VStr "");
                          ("password", VStr "$2a$10$"); ("role", VStr "user")] |} /\
  (let st := init_st (request None (VObj [("email", VStr "a@x.com")])) [] in
   register platform st =
     (Throw (Error "Illegal arguments: undefined, number"),
      with_call st (CallHash VUndef 10)) /\
   st_res (snd (register platform st)) = None).
Proof. repeat split. Qed.

End Runs.

(** * Further properties of the middleware *)

Lemma is_ws_lower_char (c : ascii) : ascii_ws (ascii_lower c) = ascii_ws c.
Proof.
  unfold ascii_ws. rewrite nat_of_lower_char.
  destruct (ascii_upper c) eqn:U; [| reflexivity].
  unfold ascii_upper in U. apply andb_true_iff in U as [U1 U2].
  apply Nat.leb_le in U1, U2.
  assert (A : forall n, (65 <= n <= 122)%nat ->
                        (Nat.eqb n 32 || (Nat.leb 9 n && Nat.leb n 13))%bool = false).
  { intros n Hn. apply orb_false_iff. split.
    - apply Nat.eqb_neq. lia.
    - apply andb_false_iff. right. apply Nat.leb_gt. lia. }
  rewrite !A by lia. reflexivity.
Qed.

Lemma first_char_toLowerCase (s : string) :
  first_char (ascii_toLowerCase s) = option_map ascii_lower (first_char s).
Proof. destruct s; reflexivity. Qed.

Lemma last_char_toLowerCase (s : string) :
  last_char (ascii_toLowerCase s) = option_map ascii_lower (last_char s).
Proof.
  induction s as [|c s IH]; [reflexivity|].
  destruct s as [|d s]; [reflexivity|].
  change (last_char (ascii_toLowerCase (String d s)) = option_map ascii_lower (last_char (String d s))).
  exact IH.
Qed.

(** A string with white space at one end is not the lower case of a
    trimmed string. *)
Lemma padded_not_trimmed (a r : string) (c : ascii) :
  first_char a = Some c \/ last_char a = Some c -> ascii_ws c = true ->
  ascii_toLowerCase (ascii_trim r) <> ascii_toLowerCase a.
Proof.
  intros E W Q.
  destruct (trim_Trimmed r) as (l & k & _ & _ & _ & F & L).
  destruct E as [E | E].
  - apply (f_equal first_char) in Q. rewrite !first_char_toLowerCase, E in Q.
    destruct (first_char (ascii_trim r)) as [d|]; [| discriminate].
    simpl in Q, F. injection Q as Q.
    rewrite <- is_ws_lower_char, Q, is_ws_lower_char in F. congruence.
  - apply (f_equal last_char) in Q. rewrite !last_char_toLowerCase, E in Q.
    destruct (last_char (ascii_trim r)) as [d|]; [| discriminate].
    simpl in Q, L. injection Q as Q.
    rewrite <- is_ws_lower_char, Q, is_ws_lower_char in L. congruence.
Qed.

Lemma role_matches_incl (P : Platform) (allowedRoles more : list string) (r : string) :
  incl allowedRoles more -> role_matches P allowedRoles r -> role_matches P more r.
Proof.
  intros I (a & A & E). exists a. split; auto.
Qed.

Lemma role_matches_admin (P : Platform) (r : string) :
  role_matches P ["admin"] r <->
  str_toLowerCase P (str_trim P r) = str_toLowerCase P "admin".
Proof.
  unfold role_matches. split.
  - intros (a & [<- | []] & E). exact E.
  - intros E. exists "admin". split; [now left | exact E].
Qed.

Section MiddlewareMore.

Variable P : Platform.

Implicit Types (st : St (DB P)) (rest : list (M (DB P) unit)).

(** A truthy token read from the header is a non-empty string. *)
Lemma bearer_truthy_string (req : Req) :
  truthy (bearer (header req "authorization")) = true ->
  exists t, bearer (header req "authorization") = VStr t /\ t <> EmptyString.
Proof.
  unfold header. destruct (assoc "authorization" (req_headers req)) as [h|];
    [| discriminate].
  unfold bearer. destruct (truthy (VStr h)) eqn:T.
  - unfold index. destruct (nth_error (split " " h) 1) as [t|]; [| discriminate].
    simpl. intros N. exists t. split; [reflexivity|].
    intros ->. discriminate.
  - rewrite T. discriminate.
Qed.

(** X1. A request whose token [jwt.verify] accepts goes on to the stages
    that follow the middleware, with the decoded claims as [req.user]: the
    headers, the body and the database are as before and no response has
    been sent. *)
Theorem valid_token_continues st rest t user :
  bearer (header (st_req st) "authorization") = VStr t -> t <> EmptyString ->
  jwt_verify P t (env P "REFRESH_TOKEN_SECRET") = VerifyOk user ->
  exists st',
    run_route (authenticateRefreshToken P :: rest) st = run_route rest st' /\
    req_user (st_req st') = user /\
    req_headers (st_req st') = req_headers (st_req st) /\
    req_body (st_req st') = req_body (st_req st) /\
    st_res st' = st_res st /\ st_db st' = st_db st /\
    st_next st' = S (st_next st).
Proof.
  intros B N V.
  exists (with_next (with_req (with_call st (CallVerify t (env P "REFRESH_TOKEN_SECRET")))
                             (set_user (st_req st) user))).
  split; [| now repeat split].
  simpl. rewrite (authenticateRefreshToken_accepted P st t user B N V). simpl.
  assert (Nat.ltb (st_next st) (S (st_next st)) = true) as ->
    by (apply Nat.ltb_lt; lia).
  reflexivity.
Qed.

(** X2. On a request that has not been answered, the middleware never
    throws and does exactly one of two things: it answers 401 or 403
    without calling [next] and without touching the request, or it calls
    [next] once without answering.  It never writes to the database. *)
Theorem refresh_middleware_answers_or_continues st :
  st_res st = None ->
  fst (authenticateRefreshToken P st) = Ok tt /\
  st_db (snd (authenticateRefreshToken P st)) = st_db st /\
  ((exists code b,
      st_res (snd (authenticateRefreshToken P st)) = Some {| status := code; body := b |} /\
      (code = 401 \/ code = 403) /\
      st_next (snd (authenticateRefreshToken P st)) = st_next st /\
      st_req (snd (authenticateRefreshToken P st)) = st_req st)
   \/
   (st_res (snd (authenticateRefreshToken P st)) = None /\
    st_next (snd (authenticateRefreshToken P st)) = S (st_next st))).
Proof.
  intros R.
  destruct (truthy (bearer (header (st_req st) "authorization"))) eqn:T.
  - destruct (bearer_truthy_string _ T) as (t & B & N).
    destruct (jwt_verify P t (env P "REFRESH_TOKEN_SECRET")) as [err | user] eqn:V.
    + rewrite (authenticateRefreshToken_rejected P st t err R B N V). simpl.
      split; [reflexivity | split; [reflexivity | left]].
      exists 403, (VObj [("error", VStr "Token invalide")]). auto.
    + rewrite (authenticateRefreshToken_accepted P st t user B N V). simpl.
      split; [reflexivity | split; [reflexivity | right]]. now split.
  - rewrite (authenticateRefreshToken_no_token P st R T). simpl.
    split; [reflexivity | split; [reflexivity | left]].
    exists 401, (VObj [("error", VStr "Token manquant")]). auto.
Qed.

(** X3. The middleware does not look at the scheme word of the header: the
    token it verifies is the text between the first and the second space,
    whatever comes before the first space (even nothing) and whatever
    follows the second one. *)
Theorem refresh_middleware_ignores_scheme st w t tail :
  assoc "authorization" (req_headers (st_req st)) = Some (w ++ " " ++ t ++ tail) ->
  has_space w = false -> has_space t = false -> t <> EmptyString ->
  tail = EmptyString \/ (exists more, tail = String " " more) ->
  bearer (header (st_req st) "authorization") = VStr t /\
  st_calls (snd (authenticateRefreshToken P st)) =
    (st_calls st ++ [CallVerify t (env P "REFRESH_TOKEN_SECRET")])%list.
Proof.
  intros H W T N L.
  assert (B : bearer (header (st_req st) "authorization") = VStr t).
  { unfold header. rewrite H. unfold bearer.
    assert (truthy (VStr (w ++ " " ++ t ++ tail)) = true) as ->
      by (simpl; destruct w; reflexivity).
    change (w ++ " " ++ t ++ tail) with (w ++ String " " (t ++ tail)).
    rewrite (split_word_space w _ W).
    destruct L as [-> | [more ->]].
    - assert (t ++ "" = t) as -> by (clear; induction t; simpl; congruence).
      now rewrite (split_word t T).
    - now rewrite (split_word_space t more T). }
  split; [exact B|].
  destruct (jwt_verify P t (env P "REFRESH_TOKEN_SECRET")) as [err | user] eqn:V.
  - unfold authenticateRefreshToken. run. rewrite B. simpl.
    destruct (t =? "")%string eqn:E; [apply String.eqb_eq in E; contradiction|].
    simpl. unfold verify. run. rewrite V. simpl. now destruct (st_res st).
  - now rewrite (authenticateRefreshToken_accepted P st t user B N V).
Qed.

End MiddlewareMore.

Section RolesMore.

Variable P : Platform.

Implicit Types (st : St (DB P)) (rest : list (M (DB P) unit)).

(** A truthy value has properties: reading one does not throw. *)
Lemma prop_truthy (u : value) (k : string) :
  truthy u = true -> exists v, prop u k = Ok v.
Proof. destruct u; simpl; try discriminate; eauto. Qed.

Lemma authorizeRoles_next_inv st allowedRoles :
  st_next (snd (authorizeRoles P allowedRoles st)) <> st_next st ->
  truthy (req_user (st_req st)) = true /\
  exists r, prop (req_user (st_req st)) "role" = Ok (VStr r) /\
            role_matches P allowedRoles r.
Proof.
  intros N. destruct (truthy (req_user (st_req st))) eqn:T.
  - split; [reflexivity|].
    destruct (prop_truthy _ "role" T) as [v R].
    assert (S : (exists r, v = VStr r) \/ (forall r, v <> VStr r)).
    { destruct v; try (right; intros r; discriminate). left. eauto. }
    destruct S as [[r ->] | S].
    + exists r. split; [exact R|].
      rewrite (authorizeRoles_string_role P st allowedRoles r T R) in N.
      apply role_test_matches.
      destruct (includes _ _); [reflexivity|].
      exfalso. apply N. unfold res_status_json. now destruct (st_res st).
    + exfalso. apply N. unfold authorizeRoles. run. rewrite T, R. simpl.
      destruct v; try reflexivity. now contradiction (S s).
  - exfalso. apply N. unfold authorizeRoles. run. rewrite T. simpl.
    now destruct (st_res st).
Qed.

(** X4. Without an identity context ([req.user] is [undefined], or any
    falsy value) the role middleware answers 401; [next] is not called and
    no later stage of the route runs. *)
Theorem authorizeRoles_without_identity_401 st rest allowedRoles :
  st_res st = None ->
  truthy (req_user (st_req st)) = false ->
  run_route (authorizeRoles P allowedRoles :: rest) st =
    (Ok tt, with_response st 401 (VObj [("error", VStr "Non authentifié")])).
Proof.
  intros R T. simpl. unfold authorizeRoles. run. rewrite T. simpl. rewrite R. simpl.
  now rewrite Nat.ltb_irrefl.
Qed.

(** X5. Whatever the request, the role middleware calls [next] only for an
    identity context that is present and whose role is a string that,
    trimmed, equals an allowed role up to case (the two are the same once
    lowered). *)
Theorem authorizeRoles_passes_only_allowed st allowedRoles :
  st_next (snd (authorizeRoles P allowedRoles st)) <> st_next st ->
  truthy (req_user (st_req st)) = true /\
  exists r, prop (req_user (st_req st)) "role" = Ok (VStr r) /\
            role_matches P allowedRoles r.
Proof. exact (authorizeRoles_next_inv st allowedRoles). Qed.

(** X6. The allowed roles are lowered but not trimmed.  On strings of
    ASCII characters, where the methods of the runtime are [ascii_trim] and
    [ascii_toLowerCase]: an allowed role written with white space at its
    start or at its end never matches, and the middleware behaves as if it
    were not in the set. *)
Theorem authorizeRoles_padded_role_is_dead st a c allowedRoles :
  ascii_runtime P ->
  is_ascii a = true ->
  (forall r, prop (req_user (st_req st)) "role" = Ok (VStr r) -> is_ascii r = true) ->
  first_char a = Some c \/ last_char a = Some c -> ascii_ws c = true ->
  authorizeRoles P (a :: allowedRoles) st = authorizeRoles P allowedRoles st.
Proof.
  intros L Ha Hr E W. unfold authorizeRoles. run.
  destruct (truthy (req_user (st_req st))); simpl; [| reflexivity].
  destruct (prop (req_user (st_req st)) "role") as [v|] eqn:Pr; [| reflexivity].
  destruct (call_trim P v) as [role|] eqn:Tr; [| reflexivity].
  assert (Q : (str_toLowerCase P role =? str_toLowerCase P a)%string = false).
  { apply String.eqb_neq. destruct v; try discriminate.
    simpl in Tr. injection Tr as <-.
    specialize (Hr s eq_refl).
    destruct (L s Hr) as [-> _].
    destruct (L (ascii_trim s) (is_ascii_trim s Hr)) as [_ ->].
    destruct (L a Ha) as [_ ->].
    exact (padded_not_trimmed a s c E W). }
  now rewrite Q.
Qed.

(** X7. Adding roles to the allowed set never turns a pass into a refusal:
    a request that passes with a set passes, in the same way, with any
    larger set. *)
Theorem authorizeRoles_more_roles st allowedRoles more :
  incl allowedRoles more ->
  st_next (snd (authorizeRoles P allowedRoles st)) <> st_next st ->
  authorizeRoles P more st = (Ok tt, with_next st) /\
  authorizeRoles P allowedRoles st = (Ok tt, with_next st).
Proof.
  intros I N.
  destruct (authorizeRoles_next_inv st allowedRoles N) as (T & r & R & A).
  rewrite !(authorizeRoles_string_role P st _ r T R).
  assert (A' : role_matches P more r) by exact (role_matches_incl P _ _ _ I A).
  apply role_test_matches in A, A'. now rewrite A, A'.
Qed.

End RolesMore.

(** * Further properties of the authentication routes *)

(** Case analysis on the innermost test the goal is stuck on. *)
Ltac split_goal :=
  repeat (match goal with
          | |- context [match ?x with _ => _ end] =>
              lazymatch x with
              | context [match _ with _ => _ end] => fail
              | _ => destruct x eqn:?
              end
          end; simpl).

Section LoginMore.

Variable P : Platform.

Implicit Types (st : St (DB P)).

(** X8. A login for an email the persistence layer does not know (the
    lookup returns [null]) is answered 400 with the message of the unknown
    user; the password is not compared and no token is signed. *)
Theorem login_unknown_user_400 st email password user :
  st_res st = None ->
  prop (req_body (st_req st)) "email" = Ok email ->
  prop (req_body (st_req st)) "password" = Ok password ->
  prisma_findUnique P email (st_db st) = Ok user ->
  truthy user = false ->
  login P st =
    (Ok tt, with_response (with_call st (CallFindUnique email))
                          400 (VObj [("message", VStr "Utilisateur introuvable")])).
Proof.
  intros R E Pw F T. unfold login, user_findUnique. run.
  rewrite E, Pw. simpl. rewrite F, T. simpl. now rewrite R.
Qed.

(** X9. A login with a password that [bcrypt.compare] refuses is answered
    400 with the message of the wrong password, another message than for an
    unknown user; no token is signed. *)
Theorem login_wrong_password_400 st email p user h :
  st_res st = None ->
  prop (req_body (st_req st)) "email" = Ok email ->
  prop (req_body (st_req st)) "password" = Ok (VStr p) ->
  prisma_findUnique P email (st_db st) = Ok user ->
  truthy user = true ->
  prop user "password" = Ok (VStr h) ->
  bcrypt_cmpfn P p h = Ok false ->
  login P st =
    (Ok tt, with_response
              (with_call (with_call st (CallFindUnique email))
                         (CallCompare (VStr p) (VStr h)))
              400 (VObj [("message", VStr "Mot de passe incorrect")])).
Proof.
  intros R E Pw F T H C.
  unfold login, user_findUnique, bcrypt_compare. run.
  rewrite E, Pw. simpl. rewrite F, T. simpl. rewrite H. simpl. rewrite C. simpl.
  now rewrite R.
Qed.

(** X10. A login for a known user whose request carries no password, or a
    password that is not a string, is answered 500 with the message of
    [bcrypt.compare]'s rejection, not 400. *)
Theorem login_password_not_string_500 st email password user stored :
  st_res st = None ->
  prop (req_body (st_req st)) "email" = Ok email ->
  prop (req_body (st_req st)) "password" = Ok password ->
  (forall p, password <> VStr p) ->
  prisma_findUnique P email (st_db st) = Ok user ->
  truthy user = true ->
  prop user "password" = Ok stored ->
  st_res (snd (login P st)) =
    Some {| status := 500;
            body := VObj [("error", VStr ("Illegal arguments: " ++ typeof password ++
                                          ", " ++ typeof stored))] |}.
Proof.
  intros R E Pw N F T H. unfold login, user_findUnique, bcrypt_compare. run.
  rewrite E, Pw. simpl. rewrite F, T. simpl. rewrite H. simpl.
  destruct password; simpl; try (now rewrite R).
  now contradiction (N s).
Qed.

(** X11. When the access token has been signed and signing the refresh
    token fails, the login is answered 500 with the message of that
    failure: the access token is not delivered, although the refresh token
    is delivered in no case. *)
Theorem login_refresh_signing_failure_500 st email p user h id role a e :
  st_res st = None ->
  prop (req_body (st_req st)) "email" = Ok email ->
  prop (req_body (st_req st)) "password" = Ok (VStr p) ->
  prisma_findUnique P email (st_db st) = Ok user ->
  truthy user = true ->
  prop user "password" = Ok (VStr h) ->
  bcrypt_cmpfn P p h = Ok true ->
  prop user "id" = Ok id ->
  prop user "role" = Ok role ->
  jwt_sign P (claims id role) (env P "ACCESS_TOKEN_SECRET") {| expiresIn := "1d" |} = Ok a ->
  jwt_sign P (claims id role) (env P "REFRESH_TOKEN_SECRET") {| expiresIn := "30d" |} = Throw e ->
  st_res (snd (login P st)) =
    Some {| status := 500; body := VObj [("error", VStr (message e))] |}.
Proof.
  intros R E Pw F T H C I Ro A Rf.
  unfold login, user_findUnique, bcrypt_compare, sign. run.
  rewrite E, Pw. simpl. rewrite F, T. simpl. rewrite H. simpl. rewrite C. simpl.
  rewrite I, Ro. unfold claims in A, Rf. simpl. rewrite A. simpl. rewrite Rf. simpl.
  now rewrite R.
Qed.

(** X12. No token is signed for a password that was not verified: if a run
    of the login handler calls [jwt.sign] at all, the user was found and
    [bcrypt.compare] accepted the submitted password against the stored
    hash. *)
Theorem login_signs_only_verified st :
  st_calls st = [] ->
  existsb is_sign (st_calls (snd (login P st))) = true ->
  exists email p user h,
    prop (req_body (st_req st)) "email" = Ok email /\
    prop (req_body (st_req st)) "password" = Ok (VStr p) /\
    prisma_findUnique P email (st_db st) = Ok user /\
    truthy user = true /\
    prop user "password" = Ok (VStr h) /\
    bcrypt_cmpfn P p h = Ok true.
Proof.
  intros I H.
  unfold login, user_findUnique, bcrypt_compare, sign in H. run. simpl in H.
  split_match I H.
  all: repeat match goal with
              | N : negb _ = false |- _ => apply negb_false_iff in N
              end.
  all: subst; do 4 eexists; repeat split; eassumption || reflexivity.
Qed.

(** X13. Whatever the request, the login handler leaves the database, the
    request object and the count of [next] calls as they were, and when it
    answers a request not yet answered its status is 200, 400 or 500. *)
Theorem login_reads_only st :
  st_db (snd (login P st)) = st_db st /\
  st_req (snd (login P st)) = st_req st /\
  st_next (snd (login P st)) = st_next st /\
  (st_res st = None ->
   forall code b,
     st_res (snd (login P st)) = Some {| status := code; body := b |} ->
     code = 200 \/ code = 400 \/ code = 500).
Proof.
  unfold login, user_findUnique, bcrypt_compare, sign. run. simpl.
  split_goal.
  all: repeat split; try reflexivity.
  all: intros R ? ? Q; simpl in *;
    try (rewrite R in *); try discriminate;
    try (injection Q as <- _); auto.
Qed.

End LoginMore.

Section RegisterMore.

Variable P : Platform.

Implicit Types (st : St (DB P)).

(** X14. A register request whose password is missing or is not a string
    is not answered by the handler: [bcrypt.hash] rejects in front of the
    [try] block, nothing is handed to the persistence layer and the
    database is as before. *)
Theorem register_password_not_string_throws st email password :
  prop (req_body (st_req st)) "email" = Ok email ->
  prop (req_body (st_req st)) "password" = Ok password ->
  (forall p, password <> VStr p) ->
  register P st =
    (Throw (Error ("Illegal arguments: " ++ typeof password ++ ", number")),
     with_call st (CallHash password 10)).
Proof.
  intros E Pw N. unfold register, bcrypt_hash. run. rewrite E, Pw. simpl.
  destruct password; try reflexivity. now contradiction (N s).
Qed.

(** X15. Whatever the body of the request (a [role] property included),
    every record the register handler hands to the persistence layer has
    exactly the properties email, password and role, with the role [user]
    and, as password, the hash of the submitted password. *)
Theorem register_creates_only_users st data :
  st_calls st = [] ->
  In (CallCreate data) (st_calls (snd (register P st))) ->
  exists email p,
    prop (req_body (st_req st)) "email" = Ok email /\
    prop (req_body (st_req st)) "password" = Ok (VStr p) /\
    data = user_data email (VStr (bcrypt_hashfn P p 10)) (VStr "user").
Proof.
  intros I H.
  unfold register, bcrypt_hash, user_create in H. run. simpl in H.
  split_match I H.
  all: simpl in H; rewrite ?I in H; simpl in H.
  all: repeat match goal with
              | Q : _ \/ _ |- _ => destruct Q as [Q | Q]
              end; try contradiction; try discriminate.
  all: match goal with Q : CallCreate _ = CallCreate _ |- _ => injection Q as <- end.
  all: subst; do 2 eexists; repeat split; eassumption || reflexivity.
Qed.

(** X16. Registering and then logging in with the same credentials
    succeeds: when the persistence layer returns the row it stored and
    finds it again by its email, and [bcrypt.compare] accepts a password
    against its own hash, the login is answered 200 with an access token
    signed over the id of the new row and the role [user]. *)
Theorem register_then_login st st2 email p row db' id a r :
  st_res st = None ->
  prop (req_body (st_req st)) "email" = Ok email ->
  prop (req_body (st_req st)) "password" = Ok (VStr p) ->
  prisma_create P (user_data email (VStr (bcrypt_hashfn P p 10)) (VStr "user")) (st_db st)
    = Ok (row, db') ->
  create_returns_data P ->
  st_res st2 = None ->
  req_body (st_req st2) = req_body (st_req st) ->
  st_db st2 = st_db (snd (register P st)) ->
  prisma_findUnique P email db' = Ok row ->
  truthy row = true ->
  bcrypt_cmpfn P p (bcrypt_hashfn P p 10) = Ok true ->
  prop row "id" = Ok id ->
  jwt_sign P (claims id (VStr "user")) (env P "ACCESS_TOKEN_SECRET")
           {| expiresIn := "1d" |} = Ok a ->
  jwt_sign P (claims id (VStr "user")) (env P "REFRESH_TOKEN_SECRET")
           {| expiresIn := "30d" |} = Ok r ->
  st_res (snd (register P st)) = Some {| status := 201; body := row |} /\
  st_res (snd (login P st2)) =
    Some {| status := 200;
            body := VObj [("message", VStr "Connexion réussie"); ("accessToken", VStr a)] |}.
Proof.
  intros R E Pw C K R2 B2 D2 F T Cmp I A Rf.
  pose proof (register_string_password P st email p R E Pw) as RS.
  cbv zeta in RS. rewrite C in RS. rewrite RS in *. simpl in D2.
  split; [reflexivity|].
  destruct (K _ _ _ _ _ _ C) as (_ & Hp & Hr).
  rewrite (login_success P st2 email p row (bcrypt_hashfn P p 10) id (VStr "user") a r);
    try assumption; try reflexivity.
  - now rewrite B2.
  - now rewrite B2.
  - now rewrite D2.
Qed.

End RegisterMore.

Section RefreshMore.

Variable P : Platform.

Implicit Types (st : St (DB P)).

(** X17. The refresh route never issues a token: whatever the request, it
    is answered 401, 403 or 500 and [jwt.sign] is not called. *)
Theorem refresh_route_never_issues st :
  st_res st = None ->
  (exists code b,
     st_res (snd (refresh_route P st)) = Some {| status := code; body := b |} /\
     (code = 401 \/ code = 403 \/ code = 500)) /\
  (forall c, In c (st_calls (snd (refresh_route P st))) ->
             In c (st_calls st) \/ is_sign c = false).
Proof.
  intros R. unfold refresh_route.
  destruct (truthy (bearer (header (st_req st) "authorization"))) eqn:T.
  - destruct (bearer_truthy_string _ T) as (t & B & N).
    destruct (jwt_verify P t (env P "REFRESH_TOKEN_SECRET")) as [err | user] eqn:V.
    + simpl. rewrite (authenticateRefreshToken_rejected P st t err R B N V). simpl.
      rewrite Nat.ltb_irrefl. simpl. split.
      * exists 403, (VObj [("error", VStr "Token invalide")]). auto.
      * intros c H. apply in_app_or in H as [H | [<- | []]]; auto.
    + simpl. rewrite (authenticateRefreshToken_accepted P st t user B N V). simpl.
      assert (Nat.ltb (st_next st) (S (st_next st)) = true) as ->
        by (apply Nat.ltb_lt; lia).
      rewrite refresh_handler_500 by exact R. simpl. rewrite Nat.ltb_irrefl. simpl.
      split.
      * exists 500, (VObj [("error", VStr "Erreur serveur")]). auto.
      * intros c H. apply in_app_or in H as [H | [<- | []]]; auto.
  - simpl. rewrite (authenticateRefreshToken_no_token P st R T). simpl.
    rewrite Nat.ltb_irrefl. simpl. split.
    + exists 401, (VObj [("error", VStr "Token manquant")]). auto.
    + auto.
Qed.

End RefreshMore.

(** * The earlier revision of the authentication routes *)

Section EarlierMore.

Variable P : Platform.

Implicit Types (st : St (DB P)).

(** X18. The earlier register handler reads the property [passwords]: a
    request that carries its password as [password], as the login handler
    and the later register handler expect it, is never answered, whatever
    that password is. *)
Theorem register_v0_ignores_password st fields email :
  req_body (st_req st) = VObj fields ->
  assoc "passwords" fields = None ->
  prop (req_body (st_req st)) "email" = Ok email ->
  register_v0 P st =
    (Throw (Error "Illegal arguments: undefined, number"),
     with_call st (CallHash VUndef 10)).
Proof.
  intros B A E. unfold register_v0, bcrypt_hash. run. rewrite E. rewrite B. simpl.
  now rewrite A.
Qed.

(** Apart from the name of that property the two register handlers are
    the same. *)
Lemma register_v0_agrees st :
  prop (req_body (st_req st)) "passwords" = prop (req_body (st_req st)) "password" ->
  register_v0 P st = register P st.
Proof.
  intros E. unfold register_v0, register. run. now rewrite E.
Qed.

(** X19. The earlier login handler, which signs no refresh token, answers
    as the later one does, except when signing the refresh token fails:
    then the earlier handler answers 200 with the access token and the
    later one 500. *)
Theorem login_v0_agrees st :
  st_res st = None ->
  st_res (snd (login_v0 P st)) = st_res (snd (login P st)) \/
  exists a e,
    st_res (snd (login_v0 P st)) =
      Some {| status := 200;
              body := VObj [("message", VStr "Connexion réussie");
                            ("accessToken", VStr a)] |} /\
    st_res (snd (login P st)) =
      Some {| status := 500; body := VObj [("error", VStr (message e))] |}.
Proof.
  intros R.
  unfold login_v0, login, user_findUnique, bcrypt_compare, sign. run. simpl.
  split_goal.
  all: try congruence.
  all: rewrite ?R; simpl; try (left; reflexivity).
  all: right; do 2 eexists; split; reflexivity.
Qed.

End EarlierMore.

(** * The catalog routes *)

Section CatalogMore.

Context {D : Type} (C : Catalog D).

Implicit Types (st : St D) (T : Table D).

(** X20. The handlers that update and delete a row by its id answer 200
    when the persistence layer has done the write and 500, with its
    message, when it has thrown, a missing row included: they never answer
    404, and after a 500 the database is as before. *)
Theorem write_by_id_200_or_500 st T deleted id_param :
  st_res st = None ->
  (match t_delete T (parseInt C id_param) (st_db st) with
   | Ok (_, db') =>
       delete_by_id C T deleted id_param st =
         (Ok tt, with_response (with_db st db') 200 (VObj [("message", VStr deleted)]))
   | Throw e =>
       delete_by_id C T deleted id_param st =
         (Ok tt, with_response st 500 (VObj [("error", VStr (message e))]))
   end) /\
  (match t_update T (parseInt C id_param) (req_body (st_req st)) (st_db st) with
   | Ok (row, db') =>
       put_by_id C T id_param st = (Ok tt, with_response (with_db st db') 200 row)
   | Throw e =>
       put_by_id C T id_param st =
         (Ok tt, with_response st 500 (VObj [("error", VStr (message e))]))
   end).
Proof.
  intros R. split.
  - unfold delete_by_id, db_write. run.
    destruct (t_delete T _ (st_db st)) as [[row db'] | e]; simpl; now rewrite R.
  - unfold put_by_id, db_write. run. simpl.
    destruct (t_update T _ _ (st_db st)) as [[row db'] | e]; simpl; now rewrite R.
Qed.

(** X21. The handlers that read a row by its id never write: the database
    is as before whatever the answer; a lookup that finds nothing is
    answered 404 with the message of the table, a row found is the body of
    a 200 answer, and a failure of the lookup is answered 500. *)
Theorem get_by_id_answers st T not_found id_param :
  st_res st = None ->
  st_db (snd (get_by_id C T not_found id_param st)) = st_db st /\
  fst (get_by_id C T not_found id_param st) = Ok tt /\
  st_res (snd (get_by_id C T not_found id_param st)) =
    match t_findUnique T (parseInt C id_param) (st_db st) with
    | Ok row => if truthy row
                then Some {| status := 200; body := row |}
                else Some {| status := 404; body := VObj [("message", VStr not_found)] |}
    | Throw e => Some {| status := 500; body := VObj [("error", VStr (message e))] |}
    end.
Proof.
  intros R. unfold get_by_id, db_read. run.
  destruct (t_findUnique T _ (st_db st)) as [row | e]; simpl.
  - destruct (truthy row); simpl; rewrite R; simpl; auto.
  - rewrite R. simpl. auto.
Qed.

(** X22. Creating a category on a request without a body (the body is
    [undefined] or [null]) throws in front of the [try] block: the handler
    answers nothing and writes nothing.  With an object as body, the name,
    present or not, goes to the persistence layer unchecked and the answer
    is 201 or 500 as that layer decides. *)
Theorem post_category_edges st :
  st_res st = None ->
  ((req_body (st_req st) = VUndef \/ req_body (st_req st) = VNull) ->
   exists msg, post_category C st = (Throw (TypeError msg), st)) /\
  (forall fields,
     req_body (st_req st) = VObj fields ->
     let name := match assoc "name" fields with Some v => v | None => VUndef end in
     match t_create (category C) (VObj [("name", name)]) (st_db st) with
     | Ok (row, db') => post_category C st = (Ok tt, with_response (with_db st db') 201 row)
     | Throw e => post_category C st =
                    (Ok tt, with_response st 500 (VObj [("error", VStr (message e))]))
     end).
Proof.
  intros R. split.
  - intros [B | B]; unfold post_category; run; rewrite B; simpl; eauto.
  - intros fields B name. unfold post_category, db_write. run. rewrite B. simpl.
    fold name.
    destruct (t_create (category C) _ (st_db st)) as [[row db'] | e]; simpl; now rewrite R.
Qed.

End CatalogMore.

Section AdminRoutes.

Variable P : Platform.

Implicit Types (st : St (DB P)) (auth handler : M (DB P) unit).

(** X23. On a route gated by [authorizeRoles('admin')], whatever stage
    authenticates the request: if that stage does not call [next] the
    route ends with it; if it passes on an identity whose role, trimmed
    and lowered, is not the lowered [admin], the route answers 403 and the handler
    does not run, so that the database is as the first stage left it; and
    if the role is [admin] the handler runs on the state the first stage
    left. *)
Theorem admin_route_gate st auth handler s1 :
  auth st = (Ok tt, s1) ->
  (st_next s1 <= st_next st ->
     admin_route P auth handler st = (Ok tt, s1))%nat /\
  (forall r,
     (st_next st < st_next s1)%nat ->
     st_res s1 = None ->
     truthy (req_user (st_req s1)) = true ->
     prop (req_user (st_req s1)) "role" = Ok (VStr r) ->
     (str_toLowerCase P (str_trim P r) <> str_toLowerCase P "admin" ->
        admin_route P auth handler st =
          (Ok tt, with_response s1 403 (VObj [("error", VStr "Accès interdit pour ce rôle")]))) /\
     (str_toLowerCase P (str_trim P r) = str_toLowerCase P "admin" ->
        admin_route P auth handler st = run_route [handler] (with_next s1))).
Proof.
  intros A. unfold admin_route. split.
  - intros L. simpl. rewrite A.
    assert (Nat.ltb (st_next st) (st_next s1) = false) as ->
      by (apply Nat.ltb_ge; exact L).
    reflexivity.
  - intros r L R T Ro.
    assert (E : run_route [auth; authorizeRoles P ["admin"]; handler] st =
                run_route [authorizeRoles P ["admin"]; handler] s1).
    { simpl. rewrite A.
      assert (Nat.ltb (st_next st) (st_next s1) = true) as ->
        by (apply Nat.ltb_lt; exact L).
      reflexivity. }
    rewrite E. clear E.
    pose proof (authorizeRoles_string_role P s1 ["admin"] r T Ro) as Q.
    pose proof (role_test_matches P ["admin"] r) as RA.
    pose proof (role_matches_admin P r) as AD.
    split; intros H.
    + destruct (includes (map (str_toLowerCase P) ["admin"])
                         (str_toLowerCase P (str_trim P r))) eqn:I.
      * exfalso. apply H, AD, RA. reflexivity.
      * unfold res_status_json in Q. rewrite R in Q.
        change (run_route [authorizeRoles P ["admin"]; handler] s1) with
          (match authorizeRoles P ["admin"] s1 with
           | (Throw e, s') => (Throw e, s')
           | (Ok _, s') => if Nat.ltb (st_next s1) (st_next s') then run_route [handler] s'
                           else (Ok tt, s')
           end).
        rewrite Q. simpl. now rewrite Nat.ltb_irrefl.
    + assert (I : includes (map (str_toLowerCase P) ["admin"])
                           (str_toLowerCase P (str_trim P r)) = true)
        by (apply RA, AD, H).
      rewrite I in Q.
      change (run_route [authorizeRoles P ["admin"]; handler] s1) with
        (match authorizeRoles P ["admin"] s1 with
         | (Throw e, s') => (Throw e, s')
         | (Ok _, s') => if Nat.ltb (st_next s1) (st_next s') then run_route [handler] s'
                         else (Ok tt, s')
         end).
      rewrite Q.
      assert (Nat.ltb (st_next s1) (st_next (with_next s1)) = true) as ->
        by (apply Nat.ltb_lt; simpl; lia).
      reflexivity.
Qed.

End AdminRoutes.

(** * The further properties on concrete requests *)

Section MoreRuns.

Import Fixture.

Let user1 : value :=
  VObj [("userId", VNum 1); ("role", VStr "user");
        ("iat", VNum 1700000000); ("exp", VNum 1702592000)].

Let row1 : value :=
  VObj [("id", VNum 1); ("email", VStr "a@x.com");
        ("password", VStr "$2a$10$pw1"); ("role", VStr "user")].

Let with_identity (u : value) : St (list value) :=
  init_st {| req_headers := []; req_body := VUndef; req_user := u |} one_user.

Lemma valid_token_continues_run :
  let st := init_st (request (Some "Bearer refresh-of-user-1") VUndef) one_user in
  jwt_verify platform "refresh-of-user-1" (env platform "REFRESH_TOKEN_SECRET")
    = VerifyOk user1 /\
  exists st',
    run_route [authenticateRefreshToken platform; refresh platform] st =
      run_route [refresh platform] st' /\
    req_user (st_req st') = user1.
Proof.
  intros st. split; [reflexivity|].
  destruct (valid_token_continues platform st [refresh platform] "refresh-of-user-1" user1)
    as (st' & E & U & _); try reflexivity; try discriminate.
  exists st'. now split.
Defined.

Lemma refresh_middleware_answers_or_continues_run :
  let st := init_st (request (Some "Bearer refresh-expired") VUndef) one_user in
  st_res st = None /\
  fst (authenticateRefreshToken platform st) = Ok tt /\
  st_db (snd (authenticateRefreshToken platform st)) = one_user.
Proof.
  intros st. split; [reflexivity|].
  destruct (refresh_middleware_answers_or_continues platform st eq_refl) as (F & D & _).
  now split.
Defined.

Lemma refresh_middleware_ignores_scheme_run :
  let st := init_st (request (Some "Basic refresh-of-user-1 trailing words") VUndef)
                    one_user in
  bearer (header (st_req st) "authorization") = VStr "refresh-of-user-1" /\
  st_calls (snd (authenticateRefreshToken platform st)) =
    [CallVerify "refresh-of-user-1" (VStr "refresh-secret")].
Proof.
  intros st.
  apply (refresh_middleware_ignores_scheme platform st "Basic" "refresh-of-user-1"
           " trailing words"); try reflexivity; try discriminate.
  right. now exists "trailing words".
Defined.

Lemma authorizeRoles_without_identity_401_run :
  let st := with_identity VUndef in
  truthy (req_user (st_req st)) = false /\
  run_route [authorizeRoles platform ["admin"]; refresh platform] st =
    (Ok tt, with_response st 401 (VObj [("error", VStr "Non authentifié")])).
Proof.
  intros st. split; [reflexivity|].
  exact (authorizeRoles_without_identity_401 platform st [refresh platform] ["admin"]
           eq_refl eq_refl).
Defined.

Lemma authorizeRoles_passes_only_allowed_run :
  let st := with_identity (VObj [("userId", VNum 7); ("role", VStr "ADMIN")]) in
  st_next (snd (authorizeRoles platform ["admin"] st)) <> st_next st /\
  exists r, prop (req_user (st_req st)) "role" = Ok (VStr r) /\
            role_matches platform ["admin"] r.
Proof.
  intros st.
  assert (N : st_next (snd (authorizeRoles platform ["admin"] st)) <> st_next st)
    by discriminate.
  split; [exact N|].
  exact (proj2 (authorizeRoles_passes_only_allowed platform st ["admin"] N)).
Defined.

Lemma authorizeRoles_padded_role_is_dead_run :
  let st := with_identity (VObj [("userId", VNum 7); ("role", VStr "admin")]) in
  first_char " admin" = Some " "%char /\
  authorizeRoles platform [" admin"] st = authorizeRoles platform [] st /\
  st_res (snd (authorizeRoles platform [" admin"] st)) =
    Some {| status := 403; body := VObj [("error", VStr "Accès interdit pour ce rôle")] |}.
Proof.
  intros st. split; [reflexivity|].
  assert (Hr : forall r, prop (req_user (st_req st)) "role" = Ok (VStr r) ->
                         is_ascii r = true).
  { intros r Q. simpl in Q. injection Q as <-. reflexivity. }
  pose proof (authorizeRoles_padded_role_is_dead platform st " admin" " "%char []
                fixture_ascii_runtime eq_refl Hr (or_introl eq_refl) eq_refl) as E.
  split; [exact E|]. rewrite E. reflexivity.
Defined.

Lemma authorizeRoles_more_roles_run :
  let st := with_identity (VObj [("userId", VNum 7); ("role", VStr "ADMIN")]) in
  incl ["admin"] ["editor"; "admin"] /\
  authorizeRoles platform ["editor"; "admin"] st = (Ok tt, with_next st).
Proof.
  intros st.
  assert (I : incl ["admin"] ["editor"; "admin"]).
  { intros x [<- | []]. right. now left. }
  split; [exact I|].
  refine (proj1 (authorizeRoles_more_roles platform st ["admin"] ["editor"; "admin"] I _)).
  discriminate.
Defined.

Lemma login_unknown_user_400_run :
  let st := init_st (request None (credentials "nobody@x.com" "pw1")) one_user in
  prisma_findUnique platform (VStr "nobody@x.com") (st_db st) = Ok VNull /\
  st_res (snd (login platform st)) =
    Some {| status := 400; body := VObj [("message", VStr "Utilisateur introuvable")] |}.
Proof.
  intros st. split; [reflexivity|].
  rewrite (login_unknown_user_400 platform st (VStr "nobody@x.com") (VStr "pw1") VNull);
    reflexivity.
Defined.

Lemma login_wrong_password_400_run :
  let st := init_st (request None (credentials "a@x.com" "guess")) one_user in
  bcrypt_cmpfn platform "guess" "$2a$10$pw1" = Ok false /\
  st_res (snd (login platform st)) =
    Some {| status := 400; body := VObj [("message", VStr "Mot de passe incorrect")] |}.
Proof.
  intros st. split; [reflexivity|].
  rewrite (login_wrong_password_400 platform st (VStr "a@x.com") "guess" row1 "$2a$10$pw1");
    reflexivity.
Defined.

Lemma login_password_not_string_500_run :
  let st := init_st (request None (VObj [("email", VStr "a@x.com")])) one_user in
  prop (req_body (st_req st)) "password" = Ok VUndef /\
  st_res (snd (login platform st)) =
    Some {| status := 500;
            body := VObj [("error", VStr "Illegal arguments: undefined, string")] |}.
Proof.
  intros st. split; [reflexivity|].
  apply (login_password_not_string_500 platform st (VStr "a@x.com") VUndef row1
           (VStr "$2a$10$pw1")); try reflexivity.
  discriminate.
Defined.

(** The test platform without [REFRESH_TOKEN_SECRET]. *)
Lemma login_refresh_signing_failure_500_run :
  let P := with_env platform
             (fun x => if (x =? "ACCESS_TOKEN_SECRET")%string then VStr "access-secret"
                       else VUndef) in
  let st : St (DB P) := init_st (request None (credentials "a@x.com" "pw1")) one_user in
  jwt_sign P (claims (VNum 1) (VStr "user")) (env P "REFRESH_TOKEN_SECRET")
           {| expiresIn := "30d" |} = Throw (Error "secretOrPrivateKey must have a value") /\
  st_res (snd (login P st)) =
    Some {| status := 500;
            body := VObj [("error", VStr "secretOrPrivateKey must have a value")] |}.
Proof.
  intros P st. split; [reflexivity|].
  apply (login_refresh_signing_failure_500 P st (VStr "a@x.com") "pw1" row1 "$2a$10$pw1"
           (VNum 1) (VStr "user") "access-secret/1d"
           (Error "secretOrPrivateKey must have a value")); reflexivity.
Defined.

Lemma login_signs_only_verified_run :
  let st := init_st (request None (credentials "a@x.com" "pw1")) one_user in
  existsb is_sign (st_calls (snd (login platform st))) = true /\
  exists email p user h,
    prisma_findUnique platform email (st_db st) = Ok user /\
    bcrypt_cmpfn platform p h = Ok true.
Proof.
  intros st. split; [reflexivity|].
  destruct (login_signs_only_verified platform st eq_refl eq_refl)
    as (email & p & user & h & _ & _ & F & _ & _ & C).
  now exists email, p, user, h.
Defined.

Lemma login_reads_only_run :
  let st := init_st (request None (credentials "a@x.com" "pw1")) one_user in
  st_db (snd (login platform st)) = one_user /\
  st_req (snd (login platform st)) = st_req st /\
  st_next (snd (login platform st)) = 0%nat.
Proof.
  intros st.
  destruct (login_reads_only platform st) as (D & Q & N & _).
  split; [exact D | split; [exact Q | exact N]].
Defined.

Lemma register_password_not_string_throws_run :
  let st := init_st (request None (VObj [("email", VStr "a@x.com"); ("password", VNum 1234)]))
                    [] in
  st_res (snd (register platform st)) = None /\
  fst (register platform st) = Throw (Error "Illegal arguments: number, number").
Proof.
  intros st.
  rewrite (register_password_not_string_throws platform st (VStr "a@x.com") (VNum 1234));
    try reflexivity.
  - now split.
  - discriminate.
Defined.

Lemma register_creates_only_users_run :
  let body := VObj [("email", VStr "a@x.com"); ("password", VStr "pw1");
                    ("role", VStr "admin")] in
  let st := init_st (request None body) [] in
  let data := user_data (VStr "a@x.com") (VStr "$2a$10$pw1") (VStr "user") in
  In (CallCreate data) (st_calls (snd (register platform st))) /\
  exists email p, data = user_data email (VStr (bcrypt_hashfn platform p 10)) (VStr "user").
Proof.
  intros body st data.
  assert (I : In (CallCreate data) (st_calls (snd (register platform st))))
    by (right; left; reflexivity).
  split; [exact I|].
  destruct (register_creates_only_users platform st data eq_refl I) as (email & p & _ & _ & E).
  now exists email, p.
Defined.

Lemma register_then_login_run :
  let st := init_st (request None (credentials "b@x.com" "pw2")) one_user in
  let row := VObj [("id", VNum 2); ("email", VStr "b@x.com");
                   ("password", VStr "$2a$10$pw2"); ("role", VStr "user")] in
  let st2 := init_st (request None (credentials "b@x.com" "pw2")) (one_user ++ [row])%list in
  st_res (snd (register platform st)) = Some {| status := 201; body := row |} /\
  st_res (snd (login platform st2)) =
    Some {| status := 200;
            body := VObj [("message", VStr "Connexion réussie");
                          ("accessToken", VStr "access-secret/1d")] |}.
Proof.
  intros st row st2.
  apply (register_then_login platform st st2 (VStr "b@x.com") "pw2" row
           (one_user ++ [row])%list (VNum 2) "access-secret/1d" "refresh-secret/30d");
    try reflexivity.
  exact fixture_create_returns_data.
Defined.

Lemma refresh_route_never_issues_run :
  let st := init_st (request (Some "Bearer refresh-of-user-1") VUndef) one_user in
  st_res st = None /\
  exists code b,
    st_res (snd (refresh_route platform st)) = Some {| status := code; body := b |} /\
    (code = 401 \/ code = 403 \/ code = 500).
Proof.
  intros st. split; [reflexivity|].
  exact (proj1 (refresh_route_never_issues platform st eq_refl)).
Defined.

Lemma register_v0_ignores_password_run :
  let st := init_st (request None (credentials "a@x.com" "pw1")) [] in
  register_v0 platform st =
    (Throw (Error "Illegal arguments: undefined, number"), with_call st (CallHash VUndef 10)).
Proof.
  intros st.
  exact (register_v0_ignores_password platform st
           [("email", VStr "a@x.com"); ("password", VStr "pw1")] (VStr "a@x.com")
           eq_refl eq_refl eq_refl).
Defined.

Lemma login_v0_agrees_run :
  let st := init_st (request None (credentials "a@x.com" "pw1")) one_user in
  st_res (snd (login_v0 platform st)) = st_res (snd (login platform st)) \/
  exists a e,
    st_res (snd (login_v0 platform st)) =
      Some {| status := 200;
              body := VObj [("message", VStr "Connexion réussie");
                            ("accessToken", VStr a)] |} /\
    st_res (snd (login platform st)) =
      Some {| status := 500; body := VObj [("error", VStr (message e))] |}.
Proof.
  intros st. exact (login_v0_agrees platform st eq_refl).
Defined.

Lemma write_by_id_200_or_500_run :
  let st := init_st (request None VUndef) CatalogFixture.categories in
  delete_category CatalogFixture.catalog "7" st =
    (Ok tt, with_response st 500
              (VObj [("error", VStr "Record to delete does not exist.")])) /\
  st_res (snd (delete_category CatalogFixture.catalog "2" st)) =
    Some {| status := 200;
            body := VObj [("message", VStr "Catégorie supprimé avec succès")] |}.
Proof.
  intros st. split.
  - exact (proj1 (write_by_id_200_or_500 CatalogFixture.catalog st CatalogFixture.table
                    "Catégorie supprimé avec succès" "7" eq_refl)).
  - pose proof (proj1 (write_by_id_200_or_500 CatalogFixture.catalog st CatalogFixture.table
                         "Catégorie supprimé avec succès" "2" eq_refl)) as E.
    unfold delete_category.
    change (category CatalogFixture.catalog) with CatalogFixture.table.
    rewrite E. reflexivity.
Defined.

Lemma get_by_id_answers_run :
  let st := init_st (request None VUndef) CatalogFixture.categories in
  st_res (snd (get_category CatalogFixture.catalog "7" st)) =
    Some {| status := 404; body := VObj [("message", VStr "Catégorie non trouvé")] |} /\
  st_db (snd (get_category CatalogFixture.catalog "7" st)) = CatalogFixture.categories.
Proof.
  intros st.
  destruct (get_by_id_answers CatalogFixture.catalog st CatalogFixture.table
              "Catégorie non trouvé" "7" eq_refl) as (D & _ & R).
  split; [exact R | exact D].
Defined.

Lemma post_category_edges_run :
  let st := init_st (request None VUndef) CatalogFixture.categories in
  st_res st = None /\
  exists msg, post_category CatalogFixture.catalog st = (Throw (TypeError msg), st).
Proof.
  intros st. split; [reflexivity|].
  exact (proj1 (post_category_edges CatalogFixture.catalog st eq_refl) (or_introl eq_refl)).
Defined.

Lemma admin_route_gate_run :
  let st := init_st (request None VUndef) CatalogFixture.categories in
  let auth := CatalogFixture.accept (VObj [("userId", VNum 1); ("role", VStr "user")]) in
  let handler := delete_category CatalogFixture.catalog "2" in
  st_res (snd (admin_route platform auth handler st)) =
    Some {| status := 403; body := VObj [("error", VStr "Accès interdit pour ce rôle")] |} /\
  st_db (snd (admin_route platform auth handler st)) = CatalogFixture.categories.
Proof.
  intros st auth handler.
  destruct (admin_route_gate platform st auth handler (snd (auth st)) eq_refl) as [_ G].
  destruct (G "user") as [E _]; try reflexivity.
  - apply Nat.ltb_lt. reflexivity.
  - rewrite E by discriminate. now split.
Defined.

End MoreRuns.
